(** * The dnd5e-2014 compatibility layer and migration gate

  A shallow embedding of the dual-identity compatibility code of the
  [dnd5e-2014] Foundry VTT system ([dnd5e.mjs], its proxy-based revision,
  and the system-flags mixin), together with the properties its
  specification states about it.

  Conventions.
  - JavaScript strings are [string]; [startsWith] and [replace] are modelled
    with the semantics of [String.prototype.startsWith] and of
    [String.prototype.replace] called with a string pattern (first
    occurrence only, [$]-patterns of the replacement text expanded).
  - Calls into the host platform (settings store, hooks, sheet registry,
    [fromUuid], [ui.notifications], [migrations.*]) are not part of this
    repository.  They are taken as parameters of the sections below, or
    recorded as events of a trace. *)

From Stdlib Require Import String Ascii List Bool Arith ZArith Lia.
From stdpp Require Import base strings gmap pretty.

Open Scope string_scope.

(* ===================================================================== *)
(** ** JavaScript string primitives *)
(* ===================================================================== *)

Module JsString.

(** [stripPrefix p s] is [Some rest] when [s = p ++ rest]. *)
Fixpoint stripPrefix (p s : string) : option string :=
  match p, s with
  | EmptyString, _ => Some s
  | String a p', String b s' =>
      if Ascii.eqb a b then stripPrefix p' s' else None
  | String _ _, EmptyString => None
  end.

(** [s.startsWith(p)]. *)
Definition startsWith (s p : string) : bool :=
  match stripPrefix p s with
  | Some _ => true
  | None => false
  end.

(** First occurrence of [pat] in [s]: the text before it and the text
    after it. *)
Fixpoint splitFirst (pat s : string) : option (string * string) :=
  match stripPrefix pat s with
  | Some rest => Some (EmptyString, rest)
  | None =>
      match s with
      | EmptyString => None
      | String c s' =>
          match splitFirst pat s' with
          | Some (before, after) => Some (String c before, after)
          | None => None
          end
      end
  end.

(** The abstract operation GetSubstitution of ECMAScript for a string
    pattern (no capture groups): [$$], [$&], [$`] and [$'] are expanded,
    every other character, including a [$] followed by a digit, is kept. *)
Fixpoint GetSubstitution (matched before after template : string) : string :=
  match template with
  | EmptyString => EmptyString
  | String "$" (String "$" r) =>
      String "$" (GetSubstitution matched before after r)
  | String "$" (String "&" r) =>
      matched ++ GetSubstitution matched before after r
  | String "$" (String "`" r) =>
      before ++ GetSubstitution matched before after r
  | String "$" (String "'" r) =>
      after ++ GetSubstitution matched before after r
  | String c r => String c (GetSubstitution matched before after r)
  end.

(** [s.replace(pat, rep)] with a string [pat]: only the first occurrence
    is replaced. *)
Definition replace (s pat rep : string) : string :=
  match splitFirst pat s with
  | Some (before, after) =>
      before ++ GetSubstitution pat before after rep ++ after
  | None => s
  end.

(** The replacement text holds no [$]. *)
Fixpoint dollarFree (s : string) : bool :=
  match s with
  | EmptyString => true
  | String c r => negb (Ascii.eqb c "$") && dollarFree r
  end.

End JsString.

Import JsString.

(* ===================================================================== *)
(** ** Host computations *)
(* ===================================================================== *)

(** A call into the host platform reads and updates the host's state
    (settings storage, documents, registries, hook handlers) and returns a
    value.  [World] is that state; the wrappers below never look inside it. *)
Definition Host (World A : Type) : Type := World -> A * World.

Definition ret {World A : Type} (a : A) : Host World A :=
  fun w => (a, w).

Definition bind {World A B : Type}
    (m : Host World A) (k : A -> Host World B) : Host World B :=
  fun w => let (a, w') := m w in k a w'.

Notation "'let*' x ':=' m 'in' k" := (bind m (fun x => k))
  (at level 10, x name, m at level 100, k at level 200).

(* ===================================================================== *)
(** ** JavaScript values *)
(* ===================================================================== *)

(** Nested configuration data: mappings, sequences and primitives.  A
    mapping keeps its entries in the order [Object.entries] lists them. *)
#[warnings="-register-all"]
Inductive JVal : Type :=
| JUndefined
| JNull
| JBool (b : bool)
| JNumber (n : Z)
| JString (s : string)
| JArray (items : list JVal)
| JObject (entries : list (string * JVal)).

Section JValInduction.

Variable P : JVal -> Prop.
Hypothesis P_undefined : P JUndefined.
Hypothesis P_null : P JNull.
Hypothesis P_bool : forall b, P (JBool b).
Hypothesis P_number : forall n, P (JNumber n).
Hypothesis P_string : forall s, P (JString s).
Hypothesis P_array : forall items, Forall P items -> P (JArray items).
Hypothesis P_object :
  forall entries, Forall (fun kv => P (snd kv)) entries -> P (JObject entries).

(** Induction on a tree, with the hypothesis on every element of a sequence
    and on every value of a mapping. *)
Fixpoint JVal_tree_ind (v : JVal) : P v :=
  match v with
  | JUndefined => P_undefined
  | JNull => P_null
  | JBool b => P_bool b
  | JNumber n => P_number n
  | JString s => P_string s
  | JArray items =>
      P_array items
        ((fix all (l : list JVal) : Forall P l :=
            match l with
            | [] => List.Forall_nil P
            | x :: r => List.Forall_cons P x r (JVal_tree_ind x) (all r)
            end) items)
  | JObject entries =>
      P_object entries
        ((fix all (l : list (string * JVal)) : Forall (fun kv => P (snd kv)) l :=
            match l with
            | [] => List.Forall_nil _
            | kv :: r => List.Forall_cons _ kv r (JVal_tree_ind (snd kv)) (all r)
            end) entries)
  end.

End JValInduction.

(* ===================================================================== *)
(** ** The running system *)
(* ===================================================================== *)

(** [game.system.flags] of the manifest: the two migration thresholds. *)
Record SystemFlags := {
  needsMigrationVersion : string;
  compatibleMigrationVersion : string
}.

(** [game.system]: the fields the compatibility layer reads. *)
Record System := {
  id : string;
  version : string;
  flags : SystemFlags
}.

(** [game]: what the [ready] hook reads.  [systemMigrationVersion] is the
    value of [game.settings.get("dnd5e-2014", "systemMigrationVersion")], a
    string setting; [None] stands for [null] or [undefined]. *)
Record Game := {
  user_isGM : bool;
  system : System;
  systemMigrationVersion : option string;
  actors_size : nat;
  scenes_size : nat;
  items_size : nat
}.

(** The two identities of the system. *)
Definition canonical : string := "dnd5e-2014".
Definition legacy : string := "dnd5e".

(** The template literal [`Compendium.${game.system.id}.`]. *)
Definition compendiumPrefix (system_id : string) : string :=
  "Compendium." ++ system_id ++ ".".

(** What the [ready] hook does to the host, in order. *)
Inductive Event : Type :=
| HooksOn (hook : string)
| SettingsSet (module key value : string)
| ReparentCompendiums (from to : string)
| NotificationsError (message : string) (localize permanent : bool)
| MigrateWorld.

(** The value of [cv] in the [ready] hook: a version string or [NaN]. *)
Inductive Cv : Type :=
| CvString (s : string)
| CvNaN.

(** JavaScript truthiness of a stored setting and of [cv]. *)
Definition truthy (v : option string) : bool :=
  match v with
  | Some s => negb (String.eqb s "")
  | None => false
  end.

Definition cvTruthy (cv : Cv) : bool :=
  match cv with
  | CvString s => negb (String.eqb s "")
  | CvNaN => false
  end.

(** [String(cv)], as the host's version comparison reads its argument. *)
Definition cvToString (cv : Cv) : string :=
  match cv with
  | CvString s => s
  | CvNaN => "NaN"
  end.

(* ===================================================================== *)
(** ** [dnd5e.mjs]: the helper-based compatibility layer *)
(* ===================================================================== *)

Module Helpers.

(** [game.system.isCompatibleWith]. *)
Definition isCompatibleWith (systemId : string) : bool :=
  String.eqb systemId "dnd5e-2014" || String.eqb systemId "dnd5e".

(** [game.dnd5e.getCompendiumReference]. *)
Definition getCompendiumReference (system_id originalPath : string) : string :=
  if startsWith originalPath (compendiumPrefix system_id) then originalPath
  else if startsWith originalPath "Compendium.dnd5e." then
    replace originalPath "Compendium.dnd5e." (compendiumPrefix system_id)
  else if startsWith originalPath "Compendium.dnd5e-2014." then
    replace originalPath "Compendium.dnd5e-2014." (compendiumPrefix system_id)
  else originalPath.

(** [game.dnd5e.findCompendiumEntry].  [fromUuid] is the host's resolver,
    [None] being its [null]; the first component of the result lists the
    paths handed to it, in order. *)
Definition findCompendiumEntry {Document : Type}
    (fromUuid : string -> option Document)
    (system_id referencePath : string) : list string * option Document :=
  let currentSystemPath := getCompendiumReference system_id referencePath in
  let document := fromUuid currentSystemPath in
  match document with
  | Some _ => ([currentSystemPath], document)
  | None =>
      let fallbackPath :=
        if startsWith referencePath "Compendium.dnd5e-2014."
        then replace referencePath "Compendium.dnd5e-2014." "Compendium.dnd5e."
        else replace referencePath "Compendium.dnd5e." "Compendium.dnd5e-2014." in
      ([currentSystemPath; fallbackPath], fromUuid fallbackPath)
  end.

(** The body of the loop of [resolveDynamicReferences] for one entry: the
    value found under the key once the iteration is over.  A matching string
    is assigned anew; an object or array is walked and updated in place;
    anything else is not touched. *)
Fixpoint resolveEntry (system_id : string) (value : JVal) : JVal :=
  match value with
  | JString s =>
      if startsWith s "Compendium.dnd5e."
      then JString (replace s "Compendium.dnd5e." (compendiumPrefix system_id))
      else value
  | JArray items => JArray (List.map (resolveEntry system_id) items)
  | JObject entries =>
      JObject (List.map (fun kv => (fst kv, resolveEntry system_id (snd kv))) entries)
  | _ => value
  end.

(** [resolveDynamicReferences(obj)]: the state of [obj] after the call.
    [Object.entries] throws on [null] and [undefined] ([None]); a primitive
    has no entry that matches and none is assigned. *)
Definition resolveDynamicReferences (system_id : string) (obj : JVal)
    : option JVal :=
  match obj with
  | JUndefined | JNull => None
  | JArray _ | JObject _ => Some (resolveEntry system_id obj)
  | _ => Some obj
  end.

(** The [ready] hook.  [isNewerVersion v1 v0] is the host's
    [foundry.utils.isNewerVersion].

    In [game.settings.get(..) || game.world.flags.dnd5e-2014?.version] the
    right operand is the subtraction [game.world.flags.dnd5e - 2014?.version],
    whose second term is [undefined]: it is [NaN] whatever the world flags
    hold. *)
Definition ready (isNewerVersion : string -> string -> bool) (game : Game)
    : list Event :=
  HooksOn "hotbarDrop" ::
  if negb (user_isGM game) then []
  else
    let cv :=
      match systemMigrationVersion game with
      | Some s => if truthy (Some s) then CvString s else CvNaN
      | None => CvNaN
      end in
    let totalDocuments := actors_size game + scenes_size game + items_size game in
    if negb (cvTruthy cv) && (totalDocuments =? 0)%nat
    then [SettingsSet "dnd5e-2014" "systemMigrationVersion" (version (system game))]
    else if cvTruthy cv
            && negb (isNewerVersion
                       (needsMigrationVersion (flags (system game)))
                       (cvToString cv))
    then []
    else
      (if isNewerVersion "3.0.0" (cvToString cv)
       then [ReparentCompendiums "DnD5e SRD Content" "D&D SRD Content"]
       else [])
      ++ (if cvTruthy cv
             && isNewerVersion
                  (compatibleMigrationVersion (flags (system game)))
                  (cvToString cv)
          then [NotificationsError "MIGRATION.5eVersionTooOldWarning" true true]
          else [])
      ++ [MigrateWorld].

End Helpers.

(* ===================================================================== *)
(** ** The proxy-based compatibility layer (second revision of [dnd5e.mjs]) *)
(* ===================================================================== *)

Module Proxy.

(** [game.settings]: the four methods the layer replaces. *)
Record ClientSettings (World Value Data Menu : Type) := {
  get : string -> string -> Host World Value;
  set : string -> string -> Value -> Host World Value;
  register : string -> string -> Data -> Host World unit;
  registerMenu : string -> string -> Menu -> Host World unit
}.
Arguments get {World Value Data Menu}.
Arguments set {World Value Data Menu}.
Arguments register {World Value Data Menu}.
Arguments registerMenu {World Value Data Menu}.

(** The replacement of [game.settings.get], [set], [register] and
    [registerMenu]; [original] holds the methods saved beforehand. *)
Definition patchSettings {World Value Data Menu : Type}
    (original : ClientSettings World Value Data Menu)
    : ClientSettings World Value Data Menu :=
  {| get := fun module key =>
       let module := if String.eqb module "dnd5e" then "dnd5e-2014" else module in
       get original module key;
     set := fun module key value =>
       let module := if String.eqb module "dnd5e" then "dnd5e-2014" else module in
       set original module key value;
     register := fun module key data =>
       let module := if String.eqb module "dnd5e" then "dnd5e-2014" else module in
       register original module key data;
     registerMenu := fun module key data =>
       let module := if String.eqb module "dnd5e" then "dnd5e-2014" else module in
       registerMenu original module key data |}.

(** [foundry.abstract.Document.prototype]: the flag accessors; the first
    argument is [this]. *)
Record DocumentPrototype (World Doc Value : Type) := {
  getFlag : Doc -> string -> string -> Host World Value;
  setFlag : Doc -> string -> string -> Value -> Host World Doc;
  unsetFlag : Doc -> string -> string -> Host World Doc
}.
Arguments getFlag {World Doc Value}.
Arguments setFlag {World Doc Value}.
Arguments unsetFlag {World Doc Value}.

Definition patchDocument {World Doc Value : Type}
    (original : DocumentPrototype World Doc Value)
    : DocumentPrototype World Doc Value :=
  {| getFlag := fun this scope key =>
       let scope := if String.eqb scope "dnd5e" then "dnd5e-2014" else scope in
       getFlag original this scope key;
     setFlag := fun this scope key value =>
       let scope := if String.eqb scope "dnd5e" then "dnd5e-2014" else scope in
       setFlag original this scope key value;
     unsetFlag := fun this scope key =>
       let scope := if String.eqb scope "dnd5e" then "dnd5e-2014" else scope in
       unsetFlag original this scope key |}.

(** [DocumentSheetConfig.registerSheet] and the legacy
    [Actors.registerSheet], which is replaced only when it exists. *)
Record SheetRegistry (World DocClass SheetClass Options : Type) := {
  registerSheet : DocClass -> string -> SheetClass -> Options -> Host World unit;
  Actors_registerSheet : option (string -> SheetClass -> Options -> Host World unit)
}.
Arguments registerSheet {World DocClass SheetClass Options}.
Arguments Actors_registerSheet {World DocClass SheetClass Options}.

Definition patchSheets {World DocClass SheetClass Options : Type}
    (original : SheetRegistry World DocClass SheetClass Options)
    : SheetRegistry World DocClass SheetClass Options :=
  {| registerSheet := fun documentClass scope sheetClass options =>
       let scope := if String.eqb scope "dnd5e" then "dnd5e-2014" else scope in
       registerSheet original documentClass scope sheetClass options;
     Actors_registerSheet :=
       match Actors_registerSheet original with
       | Some originalActorRegisterSheet =>
           Some (fun scope sheetClass options =>
             let scope := if String.eqb scope "dnd5e" then "dnd5e-2014" else scope in
             originalActorRegisterSheet scope sheetClass options)
       | None => None
       end |}.

(** The replacement of [Hooks.callAll]. *)
Definition callAll {World Arg : Type}
    (originalCallAll : string -> list Arg -> Host World bool)
    (hook : string) (args : list Arg) : Host World bool :=
  let* result := originalCallAll hook args in
  if startsWith hook "dnd5e-2014."
  then
    let legacyHook := replace hook "dnd5e-2014." "dnd5e." in
    let* _ := originalCallAll legacyHook args in
    ret result
  else ret result.


End Proxy.

(* ===================================================================== *)
(** ** The system-flags mixin *)
(* ===================================================================== *)

Module SystemFlagsMixin.

(** JavaScript truthiness of a value. *)
Definition jsTruthy (v : JVal) : bool :=
  match v with
  | JUndefined | JNull => false
  | JBool b => b
  | JNumber n => negb (Z.eqb n 0)
  | JString s => negb (String.eqb s "")
  | JArray _ | JObject _ => true
  end.

(** The class returned by [_systemFlagsDataModel], through the two uses the
    mixin makes of it: [new Model(changes, {parent}).toObject()], and
    [instance.updateSource(changes, {dryRun: true})] on the instance kept in
    [this.flags], which returns the differences and updates nothing. *)
Record DataModel := {
  toObject_new : JVal -> JVal;
  updateSource_dryRun : JVal -> JVal -> JVal
}.

(** A document that carries the mixin: its prepared [flags] and the data
    model of its system flags, [None] for the [null] of the base getter. *)
Record Document := {
  doc_flags : gmap string JVal;
  systemFlagsDataModel : option DataModel
}.

(** [setFlag(scope, key, value)].  [expandObject] is the host's
    [foundry.utils.expandObject], [update] the document's [update] and
    [super_setFlag] the method of the base class. *)
Definition setFlag {World Result : Type}
    (expandObject : JVal -> JVal)
    (update : Document -> JVal -> Host World Result)
    (super_setFlag : Document -> string -> string -> JVal -> Host World Result)
    (this : Document) (scope key : string) (value : JVal) : Host World Result :=
  match (if String.eqb scope "dnd5e-2014" then systemFlagsDataModel this else None) with
  | Some model =>
      let changes := expandObject (JObject [(key, value)]) in
      let diff :=
        match doc_flags this !! "dnd5e-2014" with
        | Some prior =>
            if jsTruthy prior then updateSource_dryRun model prior changes
            else toObject_new model changes
        | None => toObject_new model changes
        end in
      update this (JObject [("flags", JObject [("dnd5e-2014", diff)])])
  | None => super_setFlag this scope key value
  end.

End SystemFlagsMixin.

(* ===================================================================== *)
(** ** Reference models of the host *)
(* ===================================================================== *)

(** The host platform is not part of this repository.  The properties of
    the wrappers are proved for every host; the definitions of this module
    are plain instances of the host's interfaces, on which the wrappers can
    be run. *)
Module Foundry.

(** The state of the host: a key/value settings store keyed by namespace
    and key, with its registered settings and menus, and the registered
    sheets. *)
Record World := {
  storage : gmap (string * string) JVal;
  registered : gmap (string * string) JVal;
  menus : gmap (string * string) JVal;
  sheets : list (string * string * string)
}.

Definition settings : Proxy.ClientSettings World JVal JVal JVal :=
  {| Proxy.get := fun module key w =>
       (default JUndefined (storage w !! (module, key)), w);
     Proxy.set := fun module key value w =>
       (value, {| storage := <[(module, key) := value]> (storage w);
                  registered := registered w;
                  menus := menus w;
                  sheets := sheets w |});
     Proxy.register := fun module key data w =>
       (tt, {| storage := storage w;
               registered := <[(module, key) := data]> (registered w);
               menus := menus w;
               sheets := sheets w |});
     Proxy.registerMenu := fun module key data w =>
       (tt, {| storage := storage w;
               registered := registered w;
               menus := <[(module, key) := data]> (menus w);
               sheets := sheets w |}) |}.

(** A call of one method of [game.settings]. *)
Inductive SettingsCall : Type :=
| CallGet (module key : string)
| CallSet (module key : string) (value : JVal)
| CallRegister (module key : string) (data : JVal)
| CallRegisterMenu (module key : string) (data : JVal).

Definition runCall (s : Proxy.ClientSettings World JVal JVal JVal)
    (c : SettingsCall) : Host World unit :=
  match c with
  | CallGet module key => let* _ := Proxy.get s module key in ret tt
  | CallSet module key value => let* _ := Proxy.set s module key value in ret tt
  | CallRegister module key data => Proxy.register s module key data
  | CallRegisterMenu module key data => Proxy.registerMenu s module key data
  end.

(** The state of the host after a sequence of calls. *)
Definition runCalls (s : Proxy.ClientSettings World JVal JVal JVal)
    (calls : list SettingsCall) (w : World) : World :=
  fold_left (fun w c => snd (runCall s c w)) calls w.

(** Nothing is stored, registered or filed under the legacy alias. *)
Definition noLegacyEntry (w : World) : Prop :=
  forall key : string,
    storage w !! ("dnd5e", key) = None
    /\ registered w !! ("dnd5e", key) = None
    /\ menus w !! ("dnd5e", key) = None.

(** Documents that keep their flags by scope and key. *)
Definition documentPrototype
    : Proxy.DocumentPrototype World (gmap (string * string) JVal) JVal :=
  {| Proxy.getFlag := fun this scope key w =>
       (default JUndefined (this !! (scope, key)), w);
     Proxy.setFlag := fun this scope key value w =>
       (<[(scope, key) := value]> this, w);
     Proxy.unsetFlag := fun this scope key w =>
       (delete (scope, key) this, w) |}.

(** A sheet registry that lists the registrations in order. *)
Definition sheetRegistry : Proxy.SheetRegistry World string string unit :=
  {| Proxy.registerSheet := fun documentClass scope sheetClass _ w =>
       (tt, {| storage := storage w;
               registered := registered w;
               menus := menus w;
               sheets := app (sheets w) [(documentClass, scope, sheetClass)] |});
     Proxy.Actors_registerSheet :=
       Some (fun scope sheetClass _ w =>
         (tt, {| storage := storage w;
                 registered := registered w;
                 menus := menus w;
                 sheets := app (sheets w) [("Actor", scope, sheetClass)] |})) |}.

Definition emptyWorld : World :=
  {| storage := ∅; registered := ∅; menus := ∅; sheets := [] |}.

(** A hook dispatcher that records every dispatch and answers [true]. *)
Definition recordCallAll {Arg : Type} (hook : string) (args : list Arg)
    : Host (list (string * list Arg)) bool :=
  fun log => (true, (log ++ [(hook, args)])%list).

(** A compendium that holds the given documents under their paths. *)
Definition fromUuid {Document : Type} (packs : gmap string Document)
    (uuid : string) : option Document :=
  packs !! uuid.

(** Splitting a version at its dots. *)
Fixpoint splitDots (current : string) (s : string) : list string :=
  match s with
  | EmptyString => [current]
  | String "." r => current :: splitDots EmptyString r
  | String c r => splitDots (current ++ String c EmptyString) r
  end.

(** A part made of decimal digits, as a number. *)
Fixpoint digits (acc : nat) (s : string) : option nat :=
  match s with
  | EmptyString => Some acc
  | String c r =>
      let n := nat_of_ascii c in
      if (48 <=? n)%nat && (n <=? 57)%nat
      then digits (10 * acc + (n - 48)) r
      else None
  end.

Definition numeric (s : string) : option nat :=
  match s with
  | EmptyString => None
  | _ => digits 0 s
  end.

(** The part by part comparison of [isNewerVersion]: numbers as numbers,
    anything else as text; a version with more parts is newer than its
    prefix. *)
Fixpoint newerParts (v1Parts v0Parts : list string) : bool :=
  match v1Parts with
  | [] => false
  | p1 :: r1 =>
      match v0Parts with
      | [] => true
      | p0 :: r0 =>
          match numeric p0, numeric p1 with
          | Some n0, Some n1 =>
              if negb (n1 =? n0)%nat then (n0 <? n1)%nat
              else if negb (String.eqb p1 p0) then String.ltb p0 p1
              else newerParts r1 r0
          | _, _ =>
              if negb (String.eqb p1 p0) then String.ltb p0 p1
              else newerParts r1 r0
          end
      end
  end.

(** [foundry.utils.isNewerVersion(v1, v0)] on version strings. *)
Definition isNewerVersion (v1 v0 : string) : bool :=
  newerParts (splitDots EmptyString v1) (splitDots EmptyString v0).

(** Keys of an object, first occurrence first. *)
Fixpoint assocGet (k : string) (l : list (string * JVal)) : option JVal :=
  match l with
  | [] => None
  | (k', v) :: r => if String.eqb k k' then Some v else assocGet k r
  end.

Fixpoint assocSet (k : string) (v : JVal) (l : list (string * JVal))
    : list (string * JVal) :=
  match l with
  | [] => [(k, v)]
  | (k', v') :: r =>
      if String.eqb k k' then (k, v) :: r else (k', v') :: assocSet k v r
  end.

(** [foundry.utils.mergeObject(original, other)] with its default options,
    by which [update] applies a change to the stored data of a document:
    objects are merged key by key, anything else is overwritten. *)
Fixpoint mergeObject (original other : JVal) {struct other} : JVal :=
  match original, other with
  | JObject o, JObject c =>
      JObject
        (fold_left
           (fun acc kv =>
              match assocGet (fst kv) acc, snd kv with
              | Some (JObject o'), JObject c' =>
                  assocSet (fst kv) (mergeObject (JObject o') (snd kv)) acc
              | _, _ => assocSet (fst kv) (snd kv) acc
              end)
           c o)
  | _, _ => other
  end.


(** The value found by following [path] from [v]. *)
Fixpoint getPath (path : list string) (v : JVal) : option JVal :=
  match path with
  | [] => Some v
  | k :: p =>
      match v with
      | JObject o =>
          match assocGet k o with
          | Some v' => getPath p v'
          | None => None
          end
      | _ => None
      end
  end.

(** [foundry.utils.setProperty(object, key, value)], the key already split
    at its dots: the objects on the way are created when missing. *)
Fixpoint setProperty (object : JVal) (parts : list string) (value : JVal) : JVal :=
  match parts with
  | [] => value
  | k :: r =>
      let o := match object with JObject o => o | _ => [] end in
      let child := match assocGet k o with Some c => c | None => JObject [] end in
      JObject (assocSet k (setProperty child r value) o)
  end.

(** [foundry.utils.expandObject(obj)]: every dotted key becomes a path of
    nested objects. *)
Fixpoint expandObject (obj : JVal) : JVal :=
  match obj with
  | JArray items => JArray (List.map expandObject items)
  | JObject entries =>
      fold_left
        (fun acc kv =>
           setProperty acc (splitDots EmptyString (fst kv)) (expandObject (snd kv)))
        entries (JObject [])
  | _ => obj
  end.

(** A data model without a schema: it converts a change to itself and
    reports every field of a change as a difference. *)
Definition plainModel : SystemFlagsMixin.DataModel :=
  {| SystemFlagsMixin.toObject_new := fun changes => changes;
     SystemFlagsMixin.updateSource_dryRun := fun _ changes => changes |}.

(** [update] on a host whose state is the stored data of the one document:
    the change is merged into it. *)
Definition update (this : SystemFlagsMixin.Document) (changes : JVal)
    : Host JVal unit :=
  fun source => (tt, mergeObject source changes).

(** [setFlag] of the base class on the same host. *)
Definition baseSetFlag (this : SystemFlagsMixin.Document)
    (scope key : string) (value : JVal) : Host JVal unit :=
  update this
    (JObject [("flags", JObject [(scope, expandObject (JObject [(key, value)]))])]).

End Foundry.

(* ===================================================================== *)
(** ** The specification's reference rewriting *)
(* ===================================================================== *)

Module Spec.

(** The specification's [rewrite] on one string: a string of the shape
    [Compendium.dnd5e.<rest>] becomes [Compendium.<canonical>.<rest>], any
    other string is kept. *)
Definition rewriteString (canonical_id s : string) : string :=
  match stripPrefix "Compendium.dnd5e." s with
  | Some rest => "Compendium." ++ canonical_id ++ "." ++ rest
  | None => s
  end.

(** The specification's [rewrite] on a tree: every string at every depth is
    rewritten, the shape of the tree and every other value are kept. *)
Fixpoint rewrite (canonical_id : string) (tree : JVal) : JVal :=
  match tree with
  | JString s => JString (rewriteString canonical_id s)
  | JArray items => JArray (List.map (rewrite canonical_id) items)
  | JObject entries =>
      JObject (List.map (fun kv => (fst kv, rewrite canonical_id (snd kv))) entries)
  | JUndefined => JUndefined
  | JNull => JNull
  | JBool b => JBool b
  | JNumber n => JNumber n
  end.

(** The specification's [Blocked] transition, read on a run of the [ready]
    hook: with a stored version that is non-null and strictly below the
    floor, a persistent warning is surfaced and [migrateWorld] is not
    called. *)
Definition blockedTransition
    (isNewerVersion : string -> string -> bool) (game : Game) : Prop :=
  forall v : string,
    systemMigrationVersion game = Some v ->
    v <> "" ->
    isNewerVersion (compatibleMigrationVersion (flags (system game))) v = true ->
    In (NotificationsError "MIGRATION.5eVersionTooOldWarning" true true)
       (Helpers.ready isNewerVersion game)
    /\ ~ In MigrateWorld (Helpers.ready isNewerVersion game).

(** The specification's [resolve]: the canonical path first, then the path
    under the legacy alias; the first hit is returned, [None] if both
    miss. *)
Definition resolve {Document : Type} (lookup : string -> option Document)
    (rest : string) : option Document :=
  match lookup ("Compendium.dnd5e-2014." ++ rest) with
  | Some d => Some d
  | None => lookup ("Compendium.dnd5e." ++ rest)
  end.

End Spec.

(* ===================================================================== *)
(** ** [dnd5e.mjs]: class lists and safe accessors *)
(* ===================================================================== *)

Module Bidirectional.

(** [game.dnd5e.getCSSClasses]. *)
Definition getCSSClasses (system_id : string) (baseClasses : list string)
    : list string :=
  let systemClasses :=
    if String.eqb system_id "dnd5e-2014"
    then ["dnd5e-2014"; "dnd5e"]
    else ["dnd5e"; "dnd5e-2014"] in
  app systemClasses baseClasses.

(** [game.dnd5e.getCSSClassesV2]. *)
Definition getCSSClassesV2 (system_id : string) (baseClasses : list string)
    : list string :=
  let systemClasses :=
    if String.eqb system_id "dnd5e-2014"
    then ["dnd5e-2014-2"; "dnd5e2"]
    else ["dnd5e2"; "dnd5e-2014-2"] in
  app systemClasses baseClasses.

(** [game.dnd5e.getSetting] and [game.dnd5e.setSetting]; [settings] is
    [game.settings] as it is when the helper runs. *)
Definition getSetting {World Value Data Menu : Type}
    (settings : Proxy.ClientSettings World Value Data Menu) (key : string)
    : Host World Value :=
  Proxy.get settings "dnd5e-2014" key.

Definition setSetting {World Value Data Menu : Type}
    (settings : Proxy.ClientSettings World Value Data Menu)
    (key : string) (value : Value) : Host World Value :=
  Proxy.set settings "dnd5e-2014" key value.

(** [getDnd5eFlag], [setDnd5eFlag] and [unsetDnd5eFlag] of
    [Document.prototype]; [proto] holds the flag methods that [this]
    resolves. *)
Definition getDnd5eFlag {World Doc Value : Type}
    (proto : Proxy.DocumentPrototype World Doc Value)
    (this : Doc) (key : string) : Host World Value :=
  Proxy.getFlag proto this "dnd5e-2014" key.

Definition setDnd5eFlag {World Doc Value : Type}
    (proto : Proxy.DocumentPrototype World Doc Value)
    (this : Doc) (key : string) (value : Value) : Host World Doc :=
  Proxy.setFlag proto this "dnd5e-2014" key value.

Definition unsetDnd5eFlag {World Doc Value : Type}
    (proto : Proxy.DocumentPrototype World Doc Value)
    (this : Doc) (key : string) : Host World Doc :=
  Proxy.unsetFlag proto this "dnd5e-2014" key.

End Bidirectional.

(* ===================================================================== *)
(** ** The proxy-based layer: world flags and the system object *)
(* ===================================================================== *)

Module Alias.

(** [game.world.flags] once the accessor [dnd5e] is defined on it: [data]
    holds its data properties.  Defining the accessor replaces a data
    property of that name. *)
Definition defineAlias (flags : gmap string JVal) : gmap string JVal :=
  delete "dnd5e" flags.

(** Reading [flags[prop]]: the accessor answers for [dnd5e]. *)
Definition readFlag (data : gmap string JVal) (prop : string) : JVal :=
  if String.eqb prop "dnd5e"
  then default JUndefined (data !! "dnd5e-2014")
  else default JUndefined (data !! prop).

(** The assignment [flags[prop] = value]. *)
Definition writeFlag (data : gmap string JVal) (prop : string) (value : JVal)
    : gmap string JVal :=
  if String.eqb prop "dnd5e"
  then <["dnd5e-2014" := value]> data
  else <[prop := value]> data.

(** The [get] trap of the proxy returned for [game.system]: the value read
    and the target afterwards.  The target is the system object, as the map
    of its properties. *)
Definition proxyGet (target : gmap string JVal) (prop : string)
    : JVal * gmap string JVal :=
  if String.eqb prop "id" then
    let actualId := default JUndefined (target !! prop) in
    let target' :=
      if negb (SystemFlagsMixin.jsTruthy
                 (default JUndefined (target !! "_compatibilityIds")))
      then <["_compatibilityIds" := JArray [actualId; JString "dnd5e"]]> target
      else target in
    (actualId, target')
  else (default JUndefined (target !! prop), target).

End Alias.

(* ===================================================================== *)
(** ** The system-flags mixin: preparation *)
(* ===================================================================== *)

Module Preparation.

(** [prepareData] of the mixin.  [super_prepareData] is the method of the
    base class; [construct model data] is [new Model(data, {parent})]. *)
Definition prepareData
    (super_prepareData : SystemFlagsMixin.Document -> SystemFlagsMixin.Document)
    (construct : SystemFlagsMixin.DataModel -> JVal -> JVal)
    (this : SystemFlagsMixin.Document) : SystemFlagsMixin.Document :=
  let this := super_prepareData this in
  match SystemFlagsMixin.doc_flags this !! "dnd5e-2014",
        SystemFlagsMixin.systemFlagsDataModel this with
  | Some data, Some model =>
      {| SystemFlagsMixin.doc_flags :=
           <["dnd5e-2014" := construct model data]> (SystemFlagsMixin.doc_flags this);
         SystemFlagsMixin.systemFlagsDataModel :=
           SystemFlagsMixin.systemFlagsDataModel this |}
  | _, _ => this
  end.

End Preparation.

(* ===================================================================== *)
(** ** The [setup] hook: attribute lists and compendium applications *)
(* ===================================================================== *)

Module Setup.

(** The parts of the configuration [DND5E] that the attribute lists read:
    the keys of each table, in the order [Object.keys] lists them, and for a
    spell preparation mode whether its [upcast] is truthy. *)
Record Config := {
  abilities : list string;
  movementTypes : list string;
  spellPreparationModes : list (string * bool);
  spellLevels : list string;
  skills : list string;
  senses : list string;
  currencies : list string
}.

(** The lists [bar] and [value] of one actor type. *)
Record Trackable := {
  bar : list string;
  value : list string
}.

(** [CONFIG.Actor.trackableAttributes]. *)
Record TrackableAttributes := {
  character : Trackable;
  npc : Trackable;
  vehicle : Trackable;
  group : Trackable
}.

(** [Array.fromRange(n, min)]. *)
Definition fromRange (n min : nat) : list nat := seq min n.

(** The reduction that collects the alternative spell modes, [suffix] being
    what follows the key in the template. *)
Definition altSpells (DND5E : Config) (suffix : string) : list string :=
  fold_left
    (fun acc kv =>
       if negb (existsb (String.eqb (fst kv)) ["prepared"; "always"]) && snd kv
       then app acc ["spells." ++ fst kv ++ suffix]
       else acc)
    (spellPreparationModes DND5E) [].

(** [_configureTrackableAttributes]: the value assigned to
    [CONFIG.Actor.trackableAttributes]. *)
Definition _configureTrackableAttributes (DND5E : Config) : TrackableAttributes :=
  let common :=
    {| bar := [];
       value :=
         app (List.map (fun ability => "abilities." ++ ability ++ ".value")
                (abilities DND5E))
           (app (List.map (fun movement => "attributes.movement." ++ movement)
                   (movementTypes DND5E))
              ["attributes.ac.value"; "attributes.init.total"]) |} in
  let altSpells := altSpells DND5E "" in
  let creature :=
    {| bar :=
         app (bar common)
           (app ["attributes.hp"]
              (app altSpells
                 (List.map (fun l => "spells.spell" ++ pretty l)
                    (fromRange (length (spellLevels DND5E) - 1) 1))));
       value :=
         app (value common)
           (app (List.map (fun skill => "skills." ++ skill ++ ".passive")
                   (skills DND5E))
              (app (List.map (fun sense => "attributes.senses." ++ sense)
                      (senses DND5E))
                 ["attributes.spelldc"])) |} in
  {| character :=
       {| bar := app (bar creature)
                   ["resources.primary"; "resources.secondary";
                    "resources.tertiary"; "details.xp"];
          value := value creature |};
     npc :=
       {| bar := app (bar creature) ["resources.legact"; "resources.legres"];
          value := app (value creature)
                     ["details.cr"; "details.spellLevel"; "details.xp.value"] |};
     vehicle :=
       {| bar := app (bar common) ["attributes.hp"];
          value := value common |};
     group := {| bar := []; value := [] |} |}.

(** [_configureConsumableAttributes]: the value assigned to
    [CONFIG.DND5E.consumableResources]. *)
Definition _configureConsumableAttributes (DND5E : Config) : list string :=
  let altSpells := altSpells DND5E ".value" in
  app (List.map (fun ability => "abilities." ++ ability ++ ".value")
         (abilities DND5E))
    (app ["attributes.ac.flat"; "attributes.hp.value"]
       (app (List.map (fun sense => "attributes.senses." ++ sense) (senses DND5E))
          (app (List.map (fun type => "attributes.movement." ++ type)
                  (movementTypes DND5E))
             (app (List.map (fun denom => "currency." ++ denom) (currencies DND5E))
                (app ["details.xp.value";
                      "resources.primary.value"; "resources.secondary.value";
                      "resources.tertiary.value";
                      "resources.legact.value"; "resources.legres.value"]
                   (app altSpells
                      (List.map (fun level => "spells.spell" ++ pretty level ++ ".value")
                         (fromRange (length (spellLevels DND5E) - 1) 1)))))))).

(** The application class of a compendium. *)
Inductive ApplicationClass : Type :=
| TableOfContentsCompendium
| ItemCompendium5e
| DefaultCompendium (name : string).

(** A compendium of [game.packs]: [metadata.type], [metadata.flags?.display]
    when it is a string, and [applicationClass]. *)
Record Pack := {
  metadata_type : string;
  metadata_flags_display : option string;
  applicationClass : ApplicationClass
}.

(** The two passes of the [setup] hook over [game.packs]. *)
Definition applyCompendiumClasses (packs : list Pack) : list Pack :=
  let packs :=
    List.map
      (fun p =>
         match metadata_flags_display p with
         | Some display =>
             if String.eqb display "table-of-contents"
             then {| metadata_type := metadata_type p;
                     metadata_flags_display := metadata_flags_display p;
                     applicationClass := TableOfContentsCompendium |}
             else p
         | None => p
         end) packs in
  List.map
    (fun p =>
       if String.eqb (metadata_type p) "Item"
       then {| metadata_type := metadata_type p;
               metadata_flags_display := metadata_flags_display p;
               applicationClass := ItemCompendium5e |}
       else p) packs.

End Setup.

(** The spell preparation modes that the reduction of the attribute lists
    keeps. *)
Definition alternative (kv : string * bool) : bool :=
  negb (existsb (String.eqb (fst kv)) ["prepared"; "always"]) && snd kv.

(** The levels of the spell slots: [Array.fromRange(n - 1, 1)] for the [n]
    keys of [spellLevels]. *)
Definition slotLevels (DND5E : Setup.Config) : list nat :=
  Setup.fromRange (length (Setup.spellLevels DND5E) - 1) 1.



(** The flag methods that a document carrying the mixin resolves:
    [setFlag] is the one of the mixin, above the methods of the base class
    [base]. *)
Definition withMixin {World : Type}
    (expandObject : JVal -> JVal)
    (update : SystemFlagsMixin.Document -> JVal
              -> Host World SystemFlagsMixin.Document)
    (base : Proxy.DocumentPrototype World SystemFlagsMixin.Document JVal)
    : Proxy.DocumentPrototype World SystemFlagsMixin.Document JVal :=
  {| Proxy.getFlag := Proxy.getFlag base;
     Proxy.setFlag :=
       SystemFlagsMixin.setFlag expandObject update (Proxy.setFlag base);
     Proxy.unsetFlag := Proxy.unsetFlag base |}.


(** A tree with every string blanked: what is left is its shape, its keys
    and its values that are not strings. *)
Fixpoint skeleton (tree : JVal) : JVal :=
  match tree with
  | JString _ => JString EmptyString
  | JArray items => JArray (List.map skeleton items)
  | JObject entries => JObject (List.map (fun kv => (fst kv, skeleton (snd kv))) entries)
  | _ => tree
  end.

(** A tree with [f] applied to every string, at every depth. *)
Fixpoint mapStrings (f : string -> string) (tree : JVal) : JVal :=
  match tree with
  | JString s => JString (f s)
  | JArray items => JArray (List.map (mapStrings f) items)
  | JObject entries =>
      JObject (List.map (fun kv => (fst kv, mapStrings f (snd kv))) entries)
  | _ => tree
  end.

(** The call of [game.settings] with its namespace made canonical. *)
Definition redirectCall (c : Foundry.SettingsCall) : Foundry.SettingsCall :=
  let canon := fun module : string =>
    if String.eqb module "dnd5e" then "dnd5e-2014" else module in
  match c with
  | Foundry.CallGet module key => Foundry.CallGet (canon module) key
  | Foundry.CallSet module key value => Foundry.CallSet (canon module) key value
  | Foundry.CallRegister module key data =>
      Foundry.CallRegister (canon module) key data
  | Foundry.CallRegisterMenu module key data =>
      Foundry.CallRegisterMenu (canon module) key data
  end.

(* ===================================================================== *)
(** ** Sample worlds *)
(* ===================================================================== *)

(** A world last migrated at 2.0.0, opened by the GM with a system whose
    floor is 3.0.0. *)
Definition oldWorld : Game :=
  {| user_isGM := true;
     system := {| id := "dnd5e-2014";
                  version := "3.3.1";
                  flags := {| needsMigrationVersion := "3.3.0";
                              compatibleMigrationVersion := "3.0.0" |} |};
     systemMigrationVersion := Some "2.0.0";
     actors_size := 1;
     scenes_size := 0;
     items_size := 0 |}.

(** A world that has never been opened. *)
Definition freshWorld : Game :=
  {| user_isGM := true;
     system := system oldWorld;
     systemMigrationVersion := None;
     actors_size := 0;
     scenes_size := 0;
     items_size := 0 |}.

(** An actor whose system flags hold a favorite and a tidy flag. *)
Definition flaggedActor : SystemFlagsMixin.Document :=
  {| SystemFlagsMixin.doc_flags :=
       {[ "dnd5e-2014" := JObject [("favorite", JBool true); ("tidy", JNumber 1)] ]};
     SystemFlagsMixin.systemFlagsDataModel := Some Foundry.plainModel |}.

(** A base class of documents on the host whose state is the stored data
    of the one document, and its [update]. *)
Definition plainDocuments
    : Proxy.DocumentPrototype JVal SystemFlagsMixin.Document JVal :=
  {| Proxy.getFlag := fun this scope key source =>
       (default JUndefined (Foundry.getPath ["flags"; scope; key] source), source);
     Proxy.setFlag := fun this scope key value =>
       let* _ := Foundry.baseSetFlag this scope key value in ret this;
     Proxy.unsetFlag := fun this scope key => ret this |}.

Definition plainUpdate (this : SystemFlagsMixin.Document) (changes : JVal)
    : Host JVal SystemFlagsMixin.Document :=
  let* _ := Foundry.update this changes in ret this.

(** A configuration with the spell preparation modes of the system. *)
Definition sampleConfig : Setup.Config :=
  {| Setup.abilities := ["str"; "dex"; "con"; "int"; "wis"; "cha"];
     Setup.movementTypes := ["burrow"; "climb"; "fly"; "swim"; "walk"];
     Setup.spellPreparationModes :=
       [("prepared", true); ("pact", true); ("always", true);
        ("atwill", false); ("innate", false)];
     Setup.spellLevels := ["0"; "1"; "2"; "3"];
     Setup.skills := ["acr"; "ath"];
     Setup.senses := ["darkvision"];
     Setup.currencies := ["gp"; "sp"] |}.




(* ===================================================================== *)
(** ** Facts about the string primitives *)
(* ===================================================================== *)

Section StringFacts.

Lemma append_cons (a : ascii) (s t : string) :
  String a s ++ t = String a (s ++ t).
Proof. reflexivity. Qed.

Lemma append_nil (t : string) : EmptyString ++ t = t.
Proof. reflexivity. Qed.

Lemma stripPrefix_app (p r : string) : stripPrefix p (p ++ r) = Some r.
Proof.
  induction p as [|a p IH]; simpl.
  - now destruct r.
  - now rewrite Ascii.eqb_refl.
Qed.

Lemma stripPrefix_inv (p s r : string) :
  stripPrefix p s = Some r -> s = p ++ r.
Proof.
  revert s; induction p as [|a p IH]; intros s H.
  - destruct s; simpl in H; now inversion H.
  - destruct s as [|b s]; simpl in H; [discriminate|].
    destruct (Ascii.eqb a b) eqn:E; [|discriminate].
    apply Ascii.eqb_eq in E; subst b.
    rewrite append_cons; f_equal; now apply IH.
Qed.

Lemma startsWith_app (p r : string) : startsWith (p ++ r) p = true.
Proof. unfold startsWith; now rewrite stripPrefix_app. Qed.

Lemma startsWith_inv (s p : string) :
  startsWith s p = true -> exists r, s = p ++ r.
Proof.
  unfold startsWith; destruct (stripPrefix p s) as [r|] eqn:E; [|discriminate].
  intros _; exists r; now apply stripPrefix_inv.
Qed.

Lemma splitFirst_app (p r : string) :
  splitFirst p (p ++ r) = Some (EmptyString, r).
Proof.
  assert (H := stripPrefix_app p r).
  destruct (p ++ r); simpl; simpl in H; now rewrite H.
Qed.

Lemma dollarFree_app (s t : string) :
  dollarFree (s ++ t) = dollarFree s && dollarFree t.
Proof.
  induction s as [|c s IH]; simpl; [reflexivity|].
  now rewrite IH, andb_assoc.
Qed.

Lemma GetSubstitution_dollarFree (m b a t : string) :
  dollarFree t = true -> GetSubstitution m b a t = t.
Proof.
  induction t as [|c t IH]; simpl; [reflexivity|].
  intros H; apply andb_true_iff in H as [Hc Ht].
  destruct (Ascii.eqb c "$") eqn:E; [discriminate|].
  assert (Hne : c <> "$"%char) by (now apply Ascii.eqb_neq).
  rewrite (IH Ht).
  destruct c as [[] [] [] [] [] [] [] []]; try reflexivity.
  now contradiction Hne.
Qed.

Lemma replace_prefix (p rep r : string) :
  dollarFree rep = true -> replace (p ++ r) p rep = rep ++ r.
Proof.
  intros H; unfold replace.
  now rewrite splitFirst_app, GetSubstitution_dollarFree.
Qed.

Lemma dollarFree_compendiumPrefix (system_id : string) :
  dollarFree system_id = true -> dollarFree (compendiumPrefix system_id) = true.
Proof.
  intros H; unfold compendiumPrefix.
  now rewrite !dollarFree_app, H.
Qed.

End StringFacts.

(* ===================================================================== *)
(** ** Compendium references *)
(* ===================================================================== *)

Section CompendiumReference.

Import Helpers.

Variable system_id : string.
Hypothesis id_plain : dollarFree system_id = true.

Lemma getCompendiumReference_current (rest : string) :
  getCompendiumReference system_id (compendiumPrefix system_id ++ rest)
  = compendiumPrefix system_id ++ rest.
Proof. unfold getCompendiumReference; now rewrite startsWith_app. Qed.

Lemma getCompendiumReference_cases (path : string) :
  getCompendiumReference system_id path = path
  \/ exists rest,
      getCompendiumReference system_id path = compendiumPrefix system_id ++ rest.
Proof.
  unfold getCompendiumReference.
  destruct (startsWith path (compendiumPrefix system_id)); [now left|].
  destruct (startsWith path "Compendium.dnd5e.") eqn:E1.
  { apply startsWith_inv in E1 as [r ->]; right; exists r.
    apply replace_prefix, dollarFree_compendiumPrefix, id_plain. }
  destruct (startsWith path "Compendium.dnd5e-2014.") eqn:E2.
  { apply startsWith_inv in E2 as [r ->]; right; exists r.
    apply replace_prefix, dollarFree_compendiumPrefix, id_plain. }
  now left.
Qed.

End CompendiumReference.

(** C9. [getCompendiumReference] is idempotent: applied to its own output it
  returns that output unchanged, for every input path (the system id being
  a package id, which holds no [$]). *)
Theorem getCompendiumReference_idempotent (system_id path : string) :
dollarFree system_id = true ->
Helpers.getCompendiumReference system_id
  (Helpers.getCompendiumReference system_id path)
= Helpers.getCompendiumReference system_id path.
Proof.
intros Hid.
destruct (getCompendiumReference_cases system_id Hid path) as [E | [rest E]].
- now rewrite !E.
- rewrite E. apply getCompendiumReference_current.
Qed.

Lemma getCompendiumReference_idempotent_witness :
Helpers.getCompendiumReference "dnd5e-2014"
  (Helpers.getCompendiumReference "dnd5e-2014" "Compendium.dnd5e.spells.fireball")
= Helpers.getCompendiumReference "dnd5e-2014" "Compendium.dnd5e.spells.fireball".
Proof.
apply (getCompendiumReference_idempotent "dnd5e-2014"
         "Compendium.dnd5e.spells.fireball").
reflexivity.
Defined.

(* ===================================================================== *)
(** ** Rewriting of references in configuration trees *)
(* ===================================================================== *)

Lemma append_assoc (s t u : string) : (s ++ t) ++ u = s ++ (t ++ u).
Proof.
  induction s as [|c s IH]; [reflexivity|].
  now rewrite !append_cons, IH.
Qed.

Lemma compendiumPrefix_app (system_id rest : string) :
  compendiumPrefix system_id ++ rest = "Compendium." ++ system_id ++ "." ++ rest.
Proof. unfold compendiumPrefix. now rewrite !append_assoc. Qed.

Lemma rewriteString_legacy (system_id rest : string) :
  Spec.rewriteString system_id ("Compendium.dnd5e." ++ rest)
  = "Compendium." ++ system_id ++ "." ++ rest.
Proof. unfold Spec.rewriteString. now rewrite stripPrefix_app. Qed.

Lemma rewriteString_other (system_id s : string) :
  startsWith s "Compendium.dnd5e." = false -> Spec.rewriteString system_id s = s.
Proof.
  unfold startsWith, Spec.rewriteString.
  now destruct (stripPrefix "Compendium.dnd5e." s).
Qed.

Lemma canonical_not_legacy (rest : string) :
  startsWith ("Compendium.dnd5e-2014." ++ rest) "Compendium.dnd5e." = false.
Proof. reflexivity. Qed.

Lemma legacy_not_canonical (rest : string) :
  startsWith ("Compendium.dnd5e." ++ rest) "Compendium.dnd5e-2014." = false.
Proof. reflexivity. Qed.

Lemma resolveString_rewrite (system_id s : string) :
  dollarFree system_id = true ->
  (if startsWith s "Compendium.dnd5e."
   then JString (replace s "Compendium.dnd5e." (compendiumPrefix system_id))
   else JString s)
  = JString (Spec.rewriteString system_id s).
Proof.
  intros Hid.
  destruct (startsWith s "Compendium.dnd5e.") eqn:E.
  - apply startsWith_inv in E as [rest ->].
    rewrite replace_prefix by now apply dollarFree_compendiumPrefix.
    now rewrite rewriteString_legacy, compendiumPrefix_app.
  - now rewrite rewriteString_other.
Qed.

Lemma resolveEntry_rewrite (system_id : string) (value : JVal) :
  dollarFree system_id = true ->
  Helpers.resolveEntry system_id value = Spec.rewrite system_id value.
Proof.
  intros Hid.
  induction value as [ | | b | n | s | items IH | entries IH ] using JVal_tree_ind;
    try reflexivity.
  - cbn [Helpers.resolveEntry Spec.rewrite]. now apply resolveString_rewrite.
  - cbn [Helpers.resolveEntry Spec.rewrite]. f_equal.
    induction IH as [|x l Hx _ IHl]; [reflexivity|].
    cbn [List.map]. now rewrite Hx, IHl.
  - cbn [Helpers.resolveEntry Spec.rewrite]. f_equal.
    induction IH as [|kv l Hkv _ IHl]; [reflexivity|].
    cbn [List.map]. now rewrite Hkv, IHl.
Qed.

(** C4. On every finite tree of mappings, sequences and primitives the walk
    of [resolveDynamicReferences] returns (it is a total function), and what
    it leaves in a mapping or a sequence is the specification's [rewrite] of
    it: at every depth a string [Compendium.dnd5e.<rest>] has become
    [Compendium.<system id>.<rest>]; a string that does not start with
    [Compendium.dnd5e.], one under [Compendium.dnd5e-2014.] included, and
    every value that is not a string are as they were. *)
Theorem resolveDynamicReferences_rewrites (system_id : string) :
  dollarFree system_id = true ->
  (forall entries,
      Helpers.resolveDynamicReferences system_id (JObject entries)
      = Some (Spec.rewrite system_id (JObject entries)))
  /\ (forall items,
      Helpers.resolveDynamicReferences system_id (JArray items)
      = Some (Spec.rewrite system_id (JArray items)))
  /\ (forall rest,
      Spec.rewriteString system_id ("Compendium.dnd5e." ++ rest)
      = "Compendium." ++ system_id ++ "." ++ rest)
  /\ (forall s,
      startsWith s "Compendium.dnd5e." = false ->
      Spec.rewriteString system_id s = s)
  /\ (forall rest,
      Spec.rewriteString system_id ("Compendium.dnd5e-2014." ++ rest)
      = "Compendium.dnd5e-2014." ++ rest).
Proof.
  intros Hid. split; [|split; [|split; [|split]]].
  - intros entries. unfold Helpers.resolveDynamicReferences.
    now rewrite resolveEntry_rewrite.
  - intros items. unfold Helpers.resolveDynamicReferences.
    now rewrite resolveEntry_rewrite.
  - apply rewriteString_legacy.
  - apply rewriteString_other.
  - intros rest. apply rewriteString_other, canonical_not_legacy.
Qed.

Lemma resolveDynamicReferences_rewrites_witness :
  Helpers.resolveDynamicReferences "dnd5e-2014"
    (JObject [("a", JString "Compendium.dnd5e.monsters.goblin");
              ("b", JObject [("c", JString "Compendium.dnd5e.spells.fireball")]);
              ("d", JString "unrelated")])
  = Some
      (JObject [("a", JString "Compendium.dnd5e-2014.monsters.goblin");
                ("b", JObject [("c", JString "Compendium.dnd5e-2014.spells.fireball")]);
                ("d", JString "unrelated")]).
Proof.
  exact (proj1 (resolveDynamicReferences_rewrites "dnd5e-2014" eq_refl) _).
Defined.

(* ===================================================================== *)
(** ** Lookup of compendium entries *)
(* ===================================================================== *)

Section CompendiumLookup.

Import Helpers.

Context {Document : Type}.
Variable fromUuid : string -> option Document.

(** A path under the canonical namespace is looked up as it is, then under
    the legacy alias. *)
Lemma findCompendiumEntry_canonical_path (rest : string) :
  findCompendiumEntry fromUuid "dnd5e-2014" ("Compendium.dnd5e-2014." ++ rest)
  = match fromUuid ("Compendium.dnd5e-2014." ++ rest) with
    | Some d => (["Compendium.dnd5e-2014." ++ rest], Some d)
    | None =>
        (["Compendium.dnd5e-2014." ++ rest; "Compendium.dnd5e." ++ rest],
         fromUuid ("Compendium.dnd5e." ++ rest))
    end.
Proof.
  unfold findCompendiumEntry.
  change "Compendium.dnd5e-2014." with (compendiumPrefix "dnd5e-2014").
  rewrite getCompendiumReference_current, startsWith_app.
  rewrite replace_prefix by reflexivity.
  now destruct (fromUuid (compendiumPrefix "dnd5e-2014" ++ rest)).
Qed.

(** A path under the legacy alias is looked up under the canonical
    namespace, and on a miss under the canonical namespace again. *)
Lemma findCompendiumEntry_legacy_path (rest : string) :
  findCompendiumEntry fromUuid "dnd5e-2014" ("Compendium.dnd5e." ++ rest)
  = match fromUuid ("Compendium.dnd5e-2014." ++ rest) with
    | Some d => (["Compendium.dnd5e-2014." ++ rest], Some d)
    | None =>
        (["Compendium.dnd5e-2014." ++ rest; "Compendium.dnd5e-2014." ++ rest],
         None)
    end.
Proof.
  unfold findCompendiumEntry, getCompendiumReference.
  rewrite legacy_not_canonical.
  change (compendiumPrefix "dnd5e-2014") with "Compendium.dnd5e-2014.".
  rewrite legacy_not_canonical, startsWith_app.
  rewrite replace_prefix by reflexivity.
  now destruct (fromUuid ("Compendium.dnd5e-2014." ++ rest)) eqn:E.
Qed.

End CompendiumLookup.

(** C6, at an input on which the code and the claim differ.  The pack of the
    legacy alias holds the entry and the canonical pack does not: the lookup
    asks for the canonical path twice, never for the legacy one, and returns
    [null], where the specification's [resolve] finds the entry. *)
Theorem findCompendiumEntry_skips_legacy_alias :
  let packs : gmap string string :=
    {[ "Compendium.dnd5e.items.longsword" := "Longsword" ]} in
  Helpers.findCompendiumEntry (Foundry.fromUuid packs) "dnd5e-2014"
    "Compendium.dnd5e.items.longsword"
  = (["Compendium.dnd5e-2014.items.longsword";
      "Compendium.dnd5e-2014.items.longsword"], None)
  /\ Spec.resolve (Foundry.fromUuid packs) "items.longsword" = Some "Longsword".
Proof. split; vm_compute; reflexivity. Qed.

(* ===================================================================== *)
(** ** Hook mirroring *)
(* ===================================================================== *)

Section HookMirror.

Context {World Arg : Type}.
Variable originalCallAll : string -> list Arg -> Host World bool.

Lemma canonical_hook_replace (event : string) :
  replace ("dnd5e-2014." ++ event) "dnd5e-2014." "dnd5e." = "dnd5e." ++ event.
Proof. now apply replace_prefix. Qed.

Lemma legacy_hook_not_canonical (event : string) :
  startsWith ("dnd5e." ++ event) "dnd5e-2014." = false.
Proof. reflexivity. Qed.

Lemma bind_ret_run {A : Type} (m : Host World A) (w : World) :
  (let* a := m in ret a) w = m w.
Proof. unfold bind, ret. now destruct (m w). Qed.

Lemma callAll_canonical_hook (event : string) (args : list Arg) (w : World) :
  Proxy.callAll originalCallAll ("dnd5e-2014." ++ event) args w
  = (let* result := originalCallAll ("dnd5e-2014." ++ event) args in
     let* _ := originalCallAll ("dnd5e." ++ event) args in
     ret result) w.
Proof.
  unfold Proxy.callAll. now rewrite startsWith_app, canonical_hook_replace.
Qed.

Lemma callAll_legacy_hook (event : string) (args : list Arg) (w : World) :
  Proxy.callAll originalCallAll ("dnd5e." ++ event) args w
  = originalCallAll ("dnd5e." ++ event) args w.
Proof.
  unfold Proxy.callAll. rewrite legacy_hook_not_canonical. apply bind_ret_run.
Qed.

(** C3. A hook named [dnd5e-2014.<event>] is dispatched under that name
    and then, within the same call and with the same arguments, under
    [dnd5e.<event>]; a hook named [dnd5e.<event>] is dispatched under that
    name only. *)
Theorem callAll_mirrors_canonical_to_legacy
    (event : string) (args : list Arg) (w : World) :
  Proxy.callAll originalCallAll ("dnd5e-2014." ++ event) args w
  = (let* result := originalCallAll ("dnd5e-2014." ++ event) args in
     let* _ := originalCallAll ("dnd5e." ++ event) args in
     ret result) w
  /\ Proxy.callAll originalCallAll ("dnd5e." ++ event) args w
     = originalCallAll ("dnd5e." ++ event) args w.
Proof.
  split; [apply callAll_canonical_hook | apply callAll_legacy_hook].
Qed.

(** C10. The value returned by the replaced [callAll] is the value of the
    dispatch under the name the caller gave; the mirrored dispatch does not
    contribute to it. *)
Theorem callAll_returns_original_result
    (hook : string) (args : list Arg) (w : World) :
  fst (Proxy.callAll originalCallAll hook args w)
  = fst (originalCallAll hook args w).
Proof.
  unfold Proxy.callAll, bind, ret.
  destruct (originalCallAll hook args w) as [result w1].
  destruct (startsWith hook "dnd5e-2014."); [|reflexivity].
  now destruct (originalCallAll _ args w1).
Qed.

End HookMirror.

(** The dispatches seen by a recording host. *)
Lemma callAll_recorded_canonical {Arg : Type}
    (event : string) (args : list Arg) (log : list (string * list Arg)) :
  snd (Proxy.callAll Foundry.recordCallAll ("dnd5e-2014." ++ event) args log)
  = app log [(String.append "dnd5e-2014." event, args);
             (String.append "dnd5e." event, args)].
Proof.
  rewrite callAll_canonical_hook.
  unfold bind, ret, Foundry.recordCallAll. cbn [snd].
  now rewrite <- app_assoc.
Qed.

Lemma callAll_recorded_legacy {Arg : Type}
    (event : string) (args : list Arg) (log : list (string * list Arg)) :
  snd (Proxy.callAll Foundry.recordCallAll ("dnd5e." ++ event) args log)
  = app log [(String.append "dnd5e." event, args)].
Proof. now rewrite callAll_legacy_hook. Qed.

(* ===================================================================== *)
(** ** Redirection of settings, flags and sheet registrations *)
(* ===================================================================== *)

Section Redirection.

Import Proxy.

Context {World Value Data Menu Doc DocClass SheetClass Options : Type}.
Variable originalSettings : ClientSettings World Value Data Menu.
Variable originalDocument : DocumentPrototype World Doc Value.
Variable originalSheets : SheetRegistry World DocClass SheetClass Options.

(** A namespace of either identity reaches the store as the canonical one. *)
Lemma patchSettings_legacy :
  get (patchSettings originalSettings) "dnd5e" = get originalSettings "dnd5e-2014"
  /\ set (patchSettings originalSettings) "dnd5e" = set originalSettings "dnd5e-2014"
  /\ register (patchSettings originalSettings) "dnd5e"
     = register originalSettings "dnd5e-2014"
  /\ registerMenu (patchSettings originalSettings) "dnd5e"
     = registerMenu originalSettings "dnd5e-2014".
Proof. repeat split. Qed.

(** A namespace other than the legacy alias reaches the store unchanged. *)
Lemma patchSettings_other (module : string) :
  module <> "dnd5e" ->
  get (patchSettings originalSettings) module = get originalSettings module
  /\ set (patchSettings originalSettings) module = set originalSettings module
  /\ register (patchSettings originalSettings) module
     = register originalSettings module
  /\ registerMenu (patchSettings originalSettings) module
     = registerMenu originalSettings module.
Proof.
  intros H; apply String.eqb_neq in H.
  unfold patchSettings; cbn [get set register registerMenu].
  now rewrite H.
Qed.

Lemma patchDocument_other (scope : string) :
  scope <> "dnd5e" ->
  (forall this, getFlag (patchDocument originalDocument) this scope
                = getFlag originalDocument this scope)
  /\ (forall this, setFlag (patchDocument originalDocument) this scope
                   = setFlag originalDocument this scope)
  /\ (forall this, unsetFlag (patchDocument originalDocument) this scope
                   = unsetFlag originalDocument this scope).
Proof.
  intros H; apply String.eqb_neq in H.
  unfold patchDocument; cbn [getFlag setFlag unsetFlag].
  now rewrite H.
Qed.

Lemma patchSheets_other (scope : string) :
  scope <> "dnd5e" ->
  (forall documentClass,
      registerSheet (patchSheets originalSheets) documentClass scope
      = registerSheet originalSheets documentClass scope)
  /\ match Actors_registerSheet (patchSheets originalSheets),
           Actors_registerSheet originalSheets with
     | Some patched, Some original => patched scope = original scope
     | None, None => True
     | _, _ => False
     end.
Proof.
  intros H; apply String.eqb_neq in H.
  unfold patchSheets; cbn [registerSheet Actors_registerSheet].
  rewrite H. split; [reflexivity|].
  destruct (Actors_registerSheet originalSheets); [|exact I].
  now rewrite H.
Qed.

(** C1. Writing under the legacy alias and reading under the canonical
    namespace, or the other way round, is writing and reading under the
    canonical namespace of the wrapped store, so that the value read is the
    value written whenever the store returns under one namespace what was
    set under it; [register] and [registerMenu] under the alias are the
    calls of the store under the canonical namespace; and whatever identity
    is used, the store is called with a namespace that is not the alias. *)
Theorem settings_shared_between_identities
    (key : string) (value : Value) (w : World) :
  fst ((let* _ := set originalSettings "dnd5e-2014" key value in
        get originalSettings "dnd5e-2014" key) w) = value ->
  fst ((let* _ := set (patchSettings originalSettings) "dnd5e" key value in
        get (patchSettings originalSettings) "dnd5e-2014" key) w) = value
  /\ fst ((let* _ := set (patchSettings originalSettings) "dnd5e-2014" key value in
           get (patchSettings originalSettings) "dnd5e" key) w) = value
  /\ register (patchSettings originalSettings) "dnd5e" key
     = register originalSettings "dnd5e-2014" key
  /\ registerMenu (patchSettings originalSettings) "dnd5e" key
     = registerMenu originalSettings "dnd5e-2014" key
  /\ (forall module, In module ["dnd5e"; "dnd5e-2014"] ->
      get (patchSettings originalSettings) module = get originalSettings "dnd5e-2014"
      /\ set (patchSettings originalSettings) module = set originalSettings "dnd5e-2014"
      /\ register (patchSettings originalSettings) module
         = register originalSettings "dnd5e-2014"
      /\ registerMenu (patchSettings originalSettings) module
         = registerMenu originalSettings "dnd5e-2014").
Proof.
  intros Hstore.
  split; [exact Hstore|]. split; [exact Hstore|].
  split; [reflexivity|]. split; [reflexivity|].
  intros module [<- | [<- | []]]; repeat split.
Qed.

(** C8. A namespace that is neither the canonical id nor the legacy alias
    is handed unchanged to the settings store, to the flag accessors and to
    the sheet registries. *)
Theorem unrelated_namespace_forwarded_unchanged (scope : string) :
  scope <> canonical ->
  scope <> legacy ->
  (get (patchSettings originalSettings) scope = get originalSettings scope
   /\ set (patchSettings originalSettings) scope = set originalSettings scope
   /\ register (patchSettings originalSettings) scope
      = register originalSettings scope
   /\ registerMenu (patchSettings originalSettings) scope
      = registerMenu originalSettings scope)
  /\ ((forall this, getFlag (patchDocument originalDocument) this scope
                    = getFlag originalDocument this scope)
      /\ (forall this, setFlag (patchDocument originalDocument) this scope
                       = setFlag originalDocument this scope)
      /\ (forall this, unsetFlag (patchDocument originalDocument) this scope
                       = unsetFlag originalDocument this scope))
  /\ ((forall documentClass,
          registerSheet (patchSheets originalSheets) documentClass scope
          = registerSheet originalSheets documentClass scope)
      /\ match Actors_registerSheet (patchSheets originalSheets),
               Actors_registerSheet originalSheets with
         | Some patched, Some original => patched scope = original scope
         | None, None => True
         | _, _ => False
         end).
Proof.
  intros _ Hlegacy.
  split; [now apply patchSettings_other|].
  split; [now apply patchDocument_other | now apply patchSheets_other].
Qed.

End Redirection.

(** On the key/value store, whatever the calls made through the replaced
    methods and whatever the identity they name, no entry ever appears under
    the legacy alias. *)
Lemma redirected_module_not_legacy (module : string) :
  (if String.eqb module "dnd5e" then "dnd5e-2014" else module) <> "dnd5e".
Proof.
  destruct (String.eqb module "dnd5e") eqn:E; [discriminate|].
  now apply String.eqb_neq.
Qed.

Lemma patched_call_keeps_noLegacyEntry
    (c : Foundry.SettingsCall) (w : Foundry.World) :
  Foundry.noLegacyEntry w ->
  Foundry.noLegacyEntry
    (snd (Foundry.runCall (Proxy.patchSettings Foundry.settings) c w)).
Proof.
  intros Hw key. destruct (Hw key) as (Hs & Hr & Hm).
  destruct c as [m k | m k v | m k d | m k d];
    cbn [Foundry.runCall Proxy.patchSettings Foundry.settings bind ret snd
         Proxy.get Proxy.set Proxy.register Proxy.registerMenu
         Foundry.storage Foundry.registered Foundry.menus];
    repeat split; try assumption;
    (rewrite lookup_insert_ne; [assumption|]);
    intros E; injection E as E _;
    now apply (redirected_module_not_legacy m).
Qed.

Lemma patched_calls_keep_noLegacyEntry
    (calls : list Foundry.SettingsCall) (w : Foundry.World) :
  Foundry.noLegacyEntry w ->
  Foundry.noLegacyEntry
    (Foundry.runCalls (Proxy.patchSettings Foundry.settings) calls w).
Proof.
  revert w. induction calls as [|c calls IH]; intros w Hw; [exact Hw|].
  apply IH. now apply patched_call_keeps_noLegacyEntry.
Qed.

Lemma settings_shared_between_identities_witness :
  fst ((let* _ := Proxy.set (Proxy.patchSettings Foundry.settings)
                    "dnd5e" "honorScore" (JBool true) in
        Proxy.get (Proxy.patchSettings Foundry.settings)
          "dnd5e-2014" "honorScore") Foundry.emptyWorld) = JBool true.
Proof.
  refine (proj1 (settings_shared_between_identities Foundry.settings
                   "honorScore" (JBool true) Foundry.emptyWorld _)).
  vm_compute. reflexivity.
Defined.

Lemma unrelated_namespace_forwarded_unchanged_witness :
  Proxy.get (Proxy.patchSettings Foundry.settings) "pf2e"
  = Proxy.get Foundry.settings "pf2e".
Proof.
  refine (proj1 (proj1 (unrelated_namespace_forwarded_unchanged
                          Foundry.settings Foundry.documentPrototype
                          Foundry.sheetRegistry "pf2e" _ _)));
    intros H; discriminate H.
Defined.

(* ===================================================================== *)
(** ** The migration gate of the [ready] hook *)
(* ===================================================================== *)

Section MigrationGate.

Import Helpers.

Variable isNewerVersion : string -> string -> bool.

Lemma truthy_Some (v : string) : v <> "" -> truthy (Some v) = true.
Proof.
  intros H; unfold truthy. now apply String.eqb_neq in H as ->.
Qed.

(** C7. For the GM, with no stored migration version ([null], or the empty
    default) and no actor, scene or item, the hook stores the version of the
    system as the migration version and ends there: nothing of the migration
    is invoked. *)
Theorem ready_fresh_world_stamps_version (game : Game) :
  user_isGM game = true ->
  truthy (systemMigrationVersion game) = false ->
  actors_size game = 0 ->
  scenes_size game = 0 ->
  items_size game = 0 ->
  ready isNewerVersion game
  = [HooksOn "hotbarDrop";
     SettingsSet "dnd5e-2014" "systemMigrationVersion" (version (system game))].
Proof.
  intros Hgm Hcv Ha Hs Hi. unfold ready.
  rewrite Hgm, Ha, Hs, Hi. cbn [negb].
  destruct (systemMigrationVersion game) as [s|]; [|reflexivity].
  now rewrite Hcv.
Qed.

(** C2, as the code has it.  For the GM, with a stored migration version
    that is non-null and strictly below both [needsMigrationVersion] and
    [compatibleMigrationVersion], the hook raises the permanent error
    notification and then calls [migrateWorld], once: the migration is
    attempted all the same. *)
Theorem ready_too_old_warns_then_migrates (game : Game) (v : string) :
  user_isGM game = true ->
  systemMigrationVersion game = Some v ->
  v <> "" ->
  isNewerVersion (needsMigrationVersion (flags (system game))) v = true ->
  isNewerVersion (compatibleMigrationVersion (flags (system game))) v = true ->
  ready isNewerVersion game
  = (HooksOn "hotbarDrop"
     :: (if isNewerVersion "3.0.0" v
         then [ReparentCompendiums "DnD5e SRD Content" "D&D SRD Content"]
         else [])
     ++ [NotificationsError "MIGRATION.5eVersionTooOldWarning" true true;
         MigrateWorld])%list.
Proof.
  intros Hgm Hcv Hv Hneeds Hcompat. unfold ready.
  rewrite Hgm, Hcv, (truthy_Some v Hv). cbn [negb cvTruthy cvToString].
  apply String.eqb_neq in Hv. rewrite Hv, Hneeds, Hcompat. reflexivity.
Qed.

(** A stored version that is not below [needsMigrationVersion] ends the
    hook before the notification and the migration. *)
Lemma ready_up_to_date (game : Game) (v : string) :
  user_isGM game = true ->
  systemMigrationVersion game = Some v ->
  v <> "" ->
  isNewerVersion (needsMigrationVersion (flags (system game))) v = false ->
  ready isNewerVersion game = [HooksOn "hotbarDrop"].
Proof.
  intros Hgm Hcv Hv Hneeds. unfold ready.
  rewrite Hgm, Hcv, (truthy_Some v Hv). cbn [negb cvTruthy cvToString].
  apply String.eqb_neq in Hv. now rewrite Hv, Hneeds.
Qed.

(** Whoever is not the GM does not enter the gate. *)
Lemma ready_not_gm (game : Game) :
  user_isGM game = false -> ready isNewerVersion game = [HooksOn "hotbarDrop"].
Proof. intros Hgm. unfold ready. now rewrite Hgm. Qed.

End MigrationGate.

Lemma ready_fresh_world_stamps_version_witness :
  Helpers.ready Foundry.isNewerVersion freshWorld
  = [HooksOn "hotbarDrop";
     SettingsSet "dnd5e-2014" "systemMigrationVersion" "3.3.1"].
Proof.
  apply (ready_fresh_world_stamps_version Foundry.isNewerVersion freshWorld);
    reflexivity.
Defined.

Lemma ready_too_old_warns_then_migrates_witness :
  Helpers.ready Foundry.isNewerVersion oldWorld
  = [HooksOn "hotbarDrop";
     ReparentCompendiums "DnD5e SRD Content" "D&D SRD Content";
     NotificationsError "MIGRATION.5eVersionTooOldWarning" true true;
     MigrateWorld].
Proof.
  apply (ready_too_old_warns_then_migrates Foundry.isNewerVersion oldWorld "2.0.0");
    try reflexivity.
  intros H; discriminate H.
Defined.

(** C2, as stated, fails on [oldWorld]: the stored version 2.0.0 is below
    the floor 3.0.0 and [migrateWorld] is called. *)
Lemma blockedTransition_fails_on_oldWorld :
  ~ Spec.blockedTransition Foundry.isNewerVersion oldWorld.
Proof.
  intros H.
  destruct (H "2.0.0" eq_refl) as [_ Hnot].
  - intros E; discriminate E.
  - reflexivity.
  - apply Hnot. vm_compute. tauto.
Qed.

(* ===================================================================== *)
(** ** Merging a change into stored data *)
(* ===================================================================== *)

Section Merge.

Import Foundry.













End Merge.

(* ===================================================================== *)
(** ** Writing a system flag through the data model *)
(* ===================================================================== *)

Section SystemFlags.

Import SystemFlagsMixin.

Context {World Result : Type}.
Variable expandObject : JVal -> JVal.
Variable update : Document -> JVal -> Host World Result.
Variable super_setFlag : Document -> string -> string -> JVal -> Host World Result.



(** Any other scope, or a document without a data model, goes to the method
    of the base class with the arguments as they came. *)
Lemma setFlag_falls_through (this : Document) (scope key : string) (value : JVal) :
  scope <> "dnd5e-2014" \/ systemFlagsDataModel this = None ->
  setFlag expandObject update super_setFlag this scope key value
  = super_setFlag this scope key value.
Proof.
  intros [H | H]; unfold setFlag.
  - now apply String.eqb_neq in H as ->.
  - rewrite H. now destruct (String.eqb scope "dnd5e-2014").
Qed.

End SystemFlags.

Section SystemFlagsOnHost.

Import SystemFlagsMixin.





End SystemFlagsOnHost.



(* ===================================================================== *)
(** ** Further properties of the compendium references *)
(* ===================================================================== *)

Section ReferenceNamespaces.

Import Helpers.

(** A path is under the legacy namespace, under the canonical one, or under
    neither. *)
Lemma path_namespace (path : string) :
  (exists rest, path = "Compendium.dnd5e." ++ rest)
  \/ (exists rest, path = "Compendium.dnd5e-2014." ++ rest)
  \/ (startsWith path "Compendium.dnd5e." = false
      /\ startsWith path "Compendium.dnd5e-2014." = false).
Proof.
  destruct (startsWith path "Compendium.dnd5e.") eqn:E1.
  { left. now apply startsWith_inv. }
  destruct (startsWith path "Compendium.dnd5e-2014.") eqn:E2.
  { right; left. now apply startsWith_inv. }
  right; right. now split.
Qed.

Lemma reference_2014_of_legacy (rest : string) :
  getCompendiumReference "dnd5e-2014" ("Compendium.dnd5e." ++ rest)
  = "Compendium.dnd5e-2014." ++ rest.
Proof.
  unfold getCompendiumReference.
  change (compendiumPrefix "dnd5e-2014") with "Compendium.dnd5e-2014.".
  rewrite legacy_not_canonical, startsWith_app.
  now apply replace_prefix.
Qed.

Lemma reference_2014_of_canonical (rest : string) :
  getCompendiumReference "dnd5e-2014" ("Compendium.dnd5e-2014." ++ rest)
  = "Compendium.dnd5e-2014." ++ rest.
Proof. apply (getCompendiumReference_current "dnd5e-2014"). Qed.

Lemma reference_2014_of_other (path : string) :
  startsWith path "Compendium.dnd5e." = false ->
  getCompendiumReference "dnd5e-2014" path = path.
Proof.
  intros H. unfold getCompendiumReference.
  change (compendiumPrefix "dnd5e-2014") with "Compendium.dnd5e-2014.".
  rewrite H. now destruct (startsWith path "Compendium.dnd5e-2014.").
Qed.

Lemma reference_legacy_of_canonical (rest : string) :
  getCompendiumReference "dnd5e" ("Compendium.dnd5e-2014." ++ rest)
  = "Compendium.dnd5e." ++ rest.
Proof.
  unfold getCompendiumReference.
  change (compendiumPrefix "dnd5e") with "Compendium.dnd5e.".
  rewrite canonical_not_legacy, startsWith_app.
  now apply replace_prefix.
Qed.

Lemma reference_legacy_of_legacy (rest : string) :
  getCompendiumReference "dnd5e" ("Compendium.dnd5e." ++ rest)
  = "Compendium.dnd5e." ++ rest.
Proof. apply (getCompendiumReference_current "dnd5e"). Qed.

Lemma reference_legacy_of_other (path : string) :
  startsWith path "Compendium.dnd5e-2014." = false ->
  getCompendiumReference "dnd5e" path = path.
Proof.
  intros H. unfold getCompendiumReference.
  change (compendiumPrefix "dnd5e") with "Compendium.dnd5e.".
  rewrite H. now destruct (startsWith path "Compendium.dnd5e.").
Qed.

Create Rewrite HintDb references.

#[local] Hint Rewrite
  reference_2014_of_legacy reference_2014_of_canonical
  reference_legacy_of_canonical reference_legacy_of_legacy : references.

(** X1. [getCompendiumReference] changes the namespace of a path and
    nothing else: its result is the path itself, or the path was
    [Compendium.dnd5e.<rest>] or [Compendium.dnd5e-2014.<rest>] and the
    result is [Compendium.<system id>.<rest>], with the same [<rest>]. *)
Theorem getCompendiumReference_only_changes_namespace (system_id path : string) :
  dollarFree system_id = true ->
  getCompendiumReference system_id path = path
  \/ exists rest,
      (path = "Compendium.dnd5e." ++ rest
       \/ path = "Compendium.dnd5e-2014." ++ rest)
      /\ getCompendiumReference system_id path
         = "Compendium." ++ system_id ++ "." ++ rest.
Proof.
  intros Hid. unfold getCompendiumReference.
  destruct (startsWith path (compendiumPrefix system_id)); [now left|].
  destruct (startsWith path "Compendium.dnd5e.") eqn:E1.
  { apply startsWith_inv in E1 as [rest ->]. right; exists rest.
    split; [now left|].
    rewrite replace_prefix by now apply dollarFree_compendiumPrefix.
    apply compendiumPrefix_app. }
  destruct (startsWith path "Compendium.dnd5e-2014.") eqn:E2; [|now left].
  apply startsWith_inv in E2 as [rest ->]. right; exists rest.
  split; [now right|].
  rewrite replace_prefix by now apply dollarFree_compendiumPrefix.
  apply compendiumPrefix_app.
Qed.

Lemma getCompendiumReference_only_changes_namespace_witness :
  Helpers.getCompendiumReference "dnd5e-2014" "Compendium.dnd5e.rules.grappled"
  = "Compendium.dnd5e.rules.grappled"
  \/ exists rest,
      ("Compendium.dnd5e.rules.grappled" = "Compendium.dnd5e." ++ rest
       \/ "Compendium.dnd5e.rules.grappled" = "Compendium.dnd5e-2014." ++ rest)
      /\ Helpers.getCompendiumReference "dnd5e-2014" "Compendium.dnd5e.rules.grappled"
         = "Compendium." ++ "dnd5e-2014" ++ "." ++ rest.
Proof.
  apply (getCompendiumReference_only_changes_namespace "dnd5e-2014"
           "Compendium.dnd5e.rules.grappled").
  reflexivity.
Defined.

(** X2. In the [dnd5e-2014] system no result of [getCompendiumReference]
    is under the namespace [Compendium.dnd5e.]; in a system whose id is
    [dnd5e] none is under [Compendium.dnd5e-2014.]. *)
Theorem getCompendiumReference_never_foreign (path : string) :
  startsWith (getCompendiumReference "dnd5e-2014" path) "Compendium.dnd5e." = false
  /\ startsWith (getCompendiumReference "dnd5e" path) "Compendium.dnd5e-2014." = false.
Proof.
  destruct (path_namespace path) as [[rest ->] | [[rest ->] | [H1 H2]]].
  - rewrite reference_2014_of_legacy, reference_legacy_of_legacy.
    split; [apply canonical_not_legacy | apply legacy_not_canonical].
  - rewrite reference_2014_of_canonical, reference_legacy_of_canonical.
    split; [apply canonical_not_legacy | apply legacy_not_canonical].
  - now rewrite reference_2014_of_other, reference_legacy_of_other.
Qed.

(** X3. Converting a path for one system and then for the other is
    converting it for the other: a reference carried from a [dnd5e] world to
    [dnd5e-2014] and back is the reference the [dnd5e] system would have
    made of it, and the other way round. *)
Theorem getCompendiumReference_between_systems (path : string) :
  getCompendiumReference "dnd5e" (getCompendiumReference "dnd5e-2014" path)
  = getCompendiumReference "dnd5e" path
  /\ getCompendiumReference "dnd5e-2014" (getCompendiumReference "dnd5e" path)
     = getCompendiumReference "dnd5e-2014" path.
Proof.
  destruct (path_namespace path) as [[rest ->] | [[rest ->] | [H1 H2]]].
  - now autorewrite with references.
  - now autorewrite with references.
  - rewrite ?(reference_2014_of_other path H1), ?(reference_legacy_of_other path H2).
    now rewrite ?(reference_2014_of_other path H1).
Qed.

Lemma resolveEntry_string_2014 (s : string) :
  resolveEntry "dnd5e-2014" (JString s)
  = JString (getCompendiumReference "dnd5e-2014" s).
Proof.
  cbn [resolveEntry].
  destruct (startsWith s "Compendium.dnd5e.") eqn:E.
  - apply startsWith_inv in E as [rest ->].
    now rewrite reference_2014_of_legacy.
  - now rewrite reference_2014_of_other.
Qed.

(** X4. In the [dnd5e-2014] system the walk of [resolveDynamicReferences]
    and [getCompendiumReference] agree: what the walk leaves in a tree is
    the tree with [getCompendiumReference] applied to each of its strings. *)
Theorem resolveEntry_agrees_with_getCompendiumReference (tree : JVal) :
  resolveEntry "dnd5e-2014" tree
  = mapStrings (getCompendiumReference "dnd5e-2014") tree.
Proof.
  induction tree as [ | | b | n | s | items IH | entries IH ] using JVal_tree_ind;
    try reflexivity.
  - apply resolveEntry_string_2014.
  - cbn [resolveEntry mapStrings]. f_equal.
    induction IH as [|x l Hx _ IHl]; [reflexivity|].
    cbn [List.map]. now rewrite Hx, IHl.
  - cbn [resolveEntry mapStrings]. f_equal.
    induction IH as [|kv l Hkv _ IHl]; [reflexivity|].
    cbn [List.map]. now rewrite Hkv, IHl.
Qed.

Lemma resolveEntry_string_twice (system_id s : string) :
  isCompatibleWith system_id = true ->
  resolveEntry system_id (resolveEntry system_id (JString s))
  = resolveEntry system_id (JString s).
Proof.
  unfold isCompatibleWith. intros H. apply orb_true_iff in H as [H | H];
    apply String.eqb_eq in H; subst system_id; cbn [resolveEntry];
    destruct (startsWith s "Compendium.dnd5e.") eqn:E.
  - apply startsWith_inv in E as [rest ->].
    rewrite replace_prefix by reflexivity.
    change (compendiumPrefix "dnd5e-2014") with "Compendium.dnd5e-2014.".
    cbn [resolveEntry]. now rewrite canonical_not_legacy.
  - cbn [resolveEntry]. now rewrite E.
  - apply startsWith_inv in E as [rest ->].
    rewrite replace_prefix by reflexivity.
    change (compendiumPrefix "dnd5e") with "Compendium.dnd5e.".
    cbn [resolveEntry]. rewrite startsWith_app.
    now rewrite replace_prefix by reflexivity.
  - cbn [resolveEntry]. now rewrite E.
Qed.

(** X5. For either identity of the system the walk of
    [resolveDynamicReferences] is idempotent: walking a tree a second time
    changes nothing. *)
Theorem resolveEntry_idempotent (system_id : string) (tree : JVal) :
  isCompatibleWith system_id = true ->
  resolveEntry system_id (resolveEntry system_id tree)
  = resolveEntry system_id tree.
Proof.
  intros Hid.
  induction tree as [ | | b | n | s | items IH | entries IH ] using JVal_tree_ind;
    try reflexivity.
  - now apply resolveEntry_string_twice.
  - cbn [resolveEntry]. f_equal.
    induction IH as [|x l Hx _ IHl]; [reflexivity|].
    cbn [List.map]. now rewrite Hx, IHl.
  - cbn [resolveEntry]. f_equal.
    induction IH as [|kv l Hkv _ IHl]; [reflexivity|].
    cbn [List.map fst snd]. now rewrite Hkv, IHl.
Qed.

Lemma resolveEntry_idempotent_witness :
  Helpers.resolveEntry "dnd5e-2014"
    (Helpers.resolveEntry "dnd5e-2014"
       (JArray [JString "Compendium.dnd5e.rules.grappled"; JNull]))
  = Helpers.resolveEntry "dnd5e-2014"
      (JArray [JString "Compendium.dnd5e.rules.grappled"; JNull]).
Proof.
  apply (resolveEntry_idempotent "dnd5e-2014"). reflexivity.
Defined.

(** X6. Whatever the system id, the walk of [resolveDynamicReferences]
    keeps the shape of the tree: no key and no element is added, removed or
    moved, and no value other than a string is changed. *)
Theorem resolveEntry_keeps_skeleton (system_id : string) (tree : JVal) :
  skeleton (resolveEntry system_id tree) = skeleton tree.
Proof.
  induction tree as [ | | b | n | s | items IH | entries IH ] using JVal_tree_ind;
    try reflexivity.
  - cbn [resolveEntry]. now destruct (startsWith s "Compendium.dnd5e.").
  - cbn [resolveEntry skeleton]. f_equal.
    induction IH as [|x l Hx _ IHl]; [reflexivity|].
    cbn [List.map]. now rewrite Hx, IHl.
  - cbn [resolveEntry skeleton]. f_equal.
    induction IH as [|kv l Hkv _ IHl]; [reflexivity|].
    cbn [List.map fst snd]. now rewrite Hkv, IHl.
Qed.

End ReferenceNamespaces.

(* ===================================================================== *)
(** ** Further properties of the compendium lookup *)
(* ===================================================================== *)

Section LookupProperties.

Import Helpers.

Context {Document : Type}.
Variable fromUuid : string -> option Document.

(** X7. [findCompendiumEntry] asks the resolver once or twice, first for
    the path that [getCompendiumReference] gives; a document it returns is
    the answer of the resolver for the last path asked, and when it returns
    none the resolver had none for any path asked. *)
Theorem findCompendiumEntry_sound (system_id referencePath : string) :
  let attempts := fst (findCompendiumEntry fromUuid system_id referencePath) in
  let result := snd (findCompendiumEntry fromUuid system_id referencePath) in
  hd_error attempts = Some (getCompendiumReference system_id referencePath)
  /\ (length attempts = 1 \/ length attempts = 2)
  /\ (forall path, last attempts = Some path -> fromUuid path = result)
  /\ (result = None -> forall path, In path attempts -> fromUuid path = None).
Proof.
  unfold findCompendiumEntry.
  destruct (fromUuid (getCompendiumReference system_id referencePath)) as [d|] eqn:E;
    cbn [fst snd hd_error length]; simpl last.
  - split; [reflexivity|]. split; [now left|]. split.
    + intros path [= <-]. exact E.
    + discriminate.
  - split; [reflexivity|]. split; [now right|]. split.
    + now intros path [= <-].
    + intros Hnone path [<- | [<- | []]]; assumption.
Qed.

(** X8. For a path under the canonical namespace, in the [dnd5e-2014]
    system, [findCompendiumEntry] is the specification's [resolve]: the
    canonical path first, the path under the legacy alias on a miss. *)
Theorem findCompendiumEntry_canonical_resolves (rest : string) :
  snd (findCompendiumEntry fromUuid "dnd5e-2014" ("Compendium.dnd5e-2014." ++ rest))
  = Spec.resolve fromUuid rest.
Proof.
  rewrite findCompendiumEntry_canonical_path. unfold Spec.resolve.
  now destruct (fromUuid ("Compendium.dnd5e-2014." ++ rest)).
Qed.

(** X9. For a path under the legacy alias, in the [dnd5e-2014] system,
    [findCompendiumEntry] returns what the resolver has under the canonical
    namespace and nothing else: the pack of the legacy alias is not
    consulted. *)
Theorem findCompendiumEntry_legacy_is_canonical_lookup (rest : string) :
  snd (findCompendiumEntry fromUuid "dnd5e-2014" ("Compendium.dnd5e." ++ rest))
  = fromUuid ("Compendium.dnd5e-2014." ++ rest)
  /\ ~ In ("Compendium.dnd5e." ++ rest)
        (fst (findCompendiumEntry fromUuid "dnd5e-2014" ("Compendium.dnd5e." ++ rest))).
Proof.
  rewrite findCompendiumEntry_legacy_path.
  assert (Hne : "Compendium.dnd5e-2014." ++ rest <> "Compendium.dnd5e." ++ rest)
    by (intros H; discriminate H).
  destruct (fromUuid ("Compendium.dnd5e-2014." ++ rest)) as [d|] eqn:E;
    cbn [fst snd]; (split; [reflexivity|]).
  - intros [H | []]. now apply Hne.
  - intros [H | [H | []]]; now apply Hne.
Qed.

End LookupProperties.

(* ===================================================================== *)
(** ** Class lists *)
(* ===================================================================== *)

(** X10. Whatever the system id and the classes given, the class lists of
    [getCSSClasses] and [getCSSClassesV2] carry both variants of the system
    class in their first two places, the variant of the [dnd5e-2014] system
    first exactly when that is the running system, and after them the
    classes given, unchanged and in order. *)
Theorem css_classes_carry_both_variants (system_id : string) (baseClasses : list string) :
  (exists primary fallback,
      Bidirectional.getCSSClasses system_id baseClasses
      = primary :: fallback :: baseClasses
      /\ (primary = "dnd5e-2014" /\ fallback = "dnd5e"
          \/ primary = "dnd5e" /\ fallback = "dnd5e-2014")
      /\ (primary = "dnd5e-2014" <-> system_id = "dnd5e-2014"))
  /\ (exists primary fallback,
      Bidirectional.getCSSClassesV2 system_id baseClasses
      = primary :: fallback :: baseClasses
      /\ (primary = "dnd5e-2014-2" /\ fallback = "dnd5e2"
          \/ primary = "dnd5e2" /\ fallback = "dnd5e-2014-2")
      /\ (primary = "dnd5e-2014-2" <-> system_id = "dnd5e-2014")).
Proof.
  unfold Bidirectional.getCSSClasses, Bidirectional.getCSSClassesV2.
  destruct (String.eqb system_id "dnd5e-2014") eqn:E.
  - apply String.eqb_eq in E. subst system_id.
    split; eexists; eexists; (split; [reflexivity|]); (split; [now left|]); now split.
  - apply String.eqb_neq in E.
    split; eexists; eexists; (split; [reflexivity|]); (split; [now right|]);
      split; intros H; try discriminate H; contradiction.
Qed.

(* ===================================================================== *)
(** ** Further properties of the [ready] hook *)
(* ===================================================================== *)

Section ReadyProperties.

Import Helpers.

Variable isNewerVersion : string -> string -> bool.

Let totalDocuments (game : Game) : nat :=
  actors_size game + scenes_size game + items_size game.

(** The run of the hook, case by case. *)
Lemma ready_cases (game : Game) :
  (user_isGM game = false /\ ready isNewerVersion game = [HooksOn "hotbarDrop"])
  \/ (user_isGM game = true /\ truthy (systemMigrationVersion game) = false
      /\ totalDocuments game = 0
      /\ ready isNewerVersion game
         = [HooksOn "hotbarDrop";
            SettingsSet "dnd5e-2014" "systemMigrationVersion" (version (system game))])
  \/ (user_isGM game = true /\ truthy (systemMigrationVersion game) = false
      /\ totalDocuments game <> 0
      /\ ready isNewerVersion game
         = (HooksOn "hotbarDrop"
            :: (if isNewerVersion "3.0.0" "NaN"
                then [ReparentCompendiums "DnD5e SRD Content" "D&D SRD Content"]
                else [])
            ++ [MigrateWorld])%list)
  \/ (exists v, user_isGM game = true /\ systemMigrationVersion game = Some v
      /\ v <> ""
      /\ isNewerVersion (needsMigrationVersion (flags (system game))) v = false
      /\ ready isNewerVersion game = [HooksOn "hotbarDrop"])
  \/ (exists v, user_isGM game = true /\ systemMigrationVersion game = Some v
      /\ v <> ""
      /\ isNewerVersion (needsMigrationVersion (flags (system game))) v = true
      /\ ready isNewerVersion game
         = (HooksOn "hotbarDrop"
            :: (if isNewerVersion "3.0.0" v
                then [ReparentCompendiums "DnD5e SRD Content" "D&D SRD Content"]
                else [])
            ++ (if isNewerVersion (compatibleMigrationVersion (flags (system game))) v
                then [NotificationsError "MIGRATION.5eVersionTooOldWarning" true true]
                else [])
            ++ [MigrateWorld])%list).
Proof.
  unfold ready, totalDocuments.
  destruct (user_isGM game); [|now left].
  right. cbn [negb].
  destruct (systemMigrationVersion game) as [v|] eqn:Ev.
  - destruct (String.eqb v "") eqn:Eempty; cbn [truthy]; rewrite Eempty; cbn [negb].
    + apply String.eqb_eq in Eempty. subst v. cbn [cvTruthy negb andb cvToString].
      destruct (actors_size game + scenes_size game + items_size game =? 0)%nat eqn:Et.
      * left. apply Nat.eqb_eq in Et. now repeat split.
      * right; left. apply Nat.eqb_neq in Et. now repeat split.
    + right; right. cbn [cvTruthy cvToString]. rewrite Eempty. cbn [negb andb].
      apply String.eqb_neq in Eempty.
      destruct (isNewerVersion (needsMigrationVersion (flags (system game))) v) eqn:En;
        cbn [negb].
      * right. exists v. now repeat split.
      * left. exists v. now repeat split.
  - cbn [truthy cvTruthy negb andb cvToString].
    destruct (actors_size game + scenes_size game + items_size game =? 0)%nat eqn:Et.
    + left. apply Nat.eqb_eq in Et. now repeat split.
    + right; left. apply Nat.eqb_neq in Et. now repeat split.
Qed.

Ltac ready_case game :=
  let v := fresh "v" in
  destruct (ready_cases game)
    as [(Hgm & ->)
       | [(Hgm & Hcv & Htotal & ->)
         | [(Hgm & Hcv & Htotal & ->)
           | [(v & Hgm & Hcv & Hv & Hneeds & ->)
             | (v & Hgm & Hcv & Hv & Hneeds & ->)]]]].

Ltac in_trace :=
  repeat match goal with
         | |- context [if ?b then _ else _] => destruct b
         | H : context [if ?b then _ else _] |- _ => destruct b
         end;
  cbn [app In] in *;
  repeat match goal with
         | H : _ \/ _ |- _ => destruct H
         | H : False |- _ => destruct H
         | H : _ = _ |- _ => discriminate H
         end.

(** X11. Every run of the [ready] hook has one of three shapes: the
    registration of [hotbarDrop] alone; that registration and the write of
    the migration version; or that registration, at most one reparenting,
    at most one error notification and, last, one call of [migrateWorld]. *)
Theorem ready_trace_shapes (game : Game) :
  ready isNewerVersion game = [HooksOn "hotbarDrop"]
  \/ ready isNewerVersion game
     = [HooksOn "hotbarDrop";
        SettingsSet "dnd5e-2014" "systemMigrationVersion" (version (system game))]
  \/ exists reparent warn : bool,
      ready isNewerVersion game
      = (HooksOn "hotbarDrop"
         :: (if reparent
             then [ReparentCompendiums "DnD5e SRD Content" "D&D SRD Content"]
             else [])
         ++ (if warn
             then [NotificationsError "MIGRATION.5eVersionTooOldWarning" true true]
             else [])
         ++ [MigrateWorld])%list.
Proof.
  ready_case game.
  - now left.
  - right; now left.
  - right; right. exists (isNewerVersion "3.0.0" "NaN"), false. reflexivity.
  - now left.
  - right; right.
    now exists (isNewerVersion "3.0.0" v),
      (isNewerVersion (compatibleMigrationVersion (flags (system game))) v).
Qed.

(** X12. [migrateWorld] is called exactly when the user is the GM and
    either no migration version is stored while the world holds an actor, a
    scene or an item, or the stored version is older than
    [needsMigrationVersion]. *)
Theorem ready_migrates_iff (game : Game) :
  In MigrateWorld (ready isNewerVersion game)
  <-> user_isGM game = true
      /\ ((truthy (systemMigrationVersion game) = false /\ totalDocuments game <> 0)
          \/ exists v, systemMigrationVersion game = Some v /\ v <> ""
                       /\ isNewerVersion
                            (needsMigrationVersion (flags (system game))) v = true).
Proof.
  ready_case game; split.
  - intros H. in_trace.
  - intros [Hgm' _]. congruence.
  - intros H. in_trace.
  - intros [_ [[_ Hne] | (v & Hv' & Hne & _)]].
    + contradiction.
    + rewrite Hv' in Hcv. now rewrite (truthy_Some v Hne) in Hcv.
  - intros _. split; [assumption|]. now left.
  - intros _. in_trace; tauto.
  - intros H. in_trace.
  - intros [_ [[Hf _] | (v' & Hv' & _ & Hn)]].
    + rewrite Hcv in Hf. now rewrite (truthy_Some v Hv) in Hf.
    + congruence.
  - intros _. split; [assumption|]. right. now exists v.
  - intros _. in_trace; tauto.
Qed.

(** X13. The only setting the hook ever writes is
    [dnd5e-2014.systemMigrationVersion], with the version of the system,
    and it writes it exactly when the user is the GM, no migration version
    is stored and the world holds no actor, scene or item. *)
Theorem ready_stamps_iff (game : Game) (module key value : string) :
  In (SettingsSet module key value) (ready isNewerVersion game)
  <-> user_isGM game = true
      /\ truthy (systemMigrationVersion game) = false
      /\ totalDocuments game = 0
      /\ module = "dnd5e-2014" /\ key = "systemMigrationVersion"
      /\ value = version (system game).
Proof.
  ready_case game; split.
  - intros H. in_trace.
  - intros [Hgm' _]. congruence.
  - intros [H | [H | []]]; [discriminate H|]. injection H as <- <- <-. now repeat split.
  - intros (_ & _ & _ & -> & -> & ->). right; now left.
  - intros H. in_trace.
  - intros (_ & _ & Ht & _). contradiction.
  - intros H. in_trace.
  - intros (_ & Hf & _). rewrite Hcv in Hf. now rewrite (truthy_Some v Hv) in Hf.
  - intros H. in_trace.
  - intros (_ & Hf & _). rewrite Hcv in Hf. now rewrite (truthy_Some v Hv) in Hf.
Qed.

(** X14. The error notification is raised exactly when the user is the GM
    and the stored version is older than both [needsMigrationVersion] and
    [compatibleMigrationVersion]; it is then followed by [migrateWorld]. *)
Theorem ready_warns_iff (game : Game) :
  In (NotificationsError "MIGRATION.5eVersionTooOldWarning" true true)
     (ready isNewerVersion game)
  <-> user_isGM game = true
      /\ exists v, systemMigrationVersion game = Some v /\ v <> ""
           /\ isNewerVersion (needsMigrationVersion (flags (system game))) v = true
           /\ isNewerVersion (compatibleMigrationVersion (flags (system game))) v = true.
Proof.
  ready_case game; split.
  - intros H. in_trace.
  - intros [Hgm' _]. congruence.
  - intros H. in_trace.
  - intros (_ & v & Hv' & Hne & _).
    rewrite Hv' in Hcv. now rewrite (truthy_Some v Hne) in Hcv.
  - intros H. in_trace.
  - intros (_ & v & Hv' & Hne & _).
    rewrite Hv' in Hcv. now rewrite (truthy_Some v Hne) in Hcv.
  - intros H. in_trace.
  - intros (_ & v' & Hv' & _ & Hn & _). congruence.
  - intros H. split; [assumption|]. exists v. repeat split; try assumption.
    destruct (isNewerVersion (compatibleMigrationVersion (flags (system game))) v);
      [reflexivity|]. in_trace.
  - intros (_ & v' & Hv' & _ & _ & Hc).
    assert (v' = v) by congruence. subst v'. rewrite Hc. in_trace; tauto.
Qed.

End ReadyProperties.

(* ===================================================================== *)
(** ** Further properties of the proxy-based layer *)
(* ===================================================================== *)

Section ProxyProperties.

Import Proxy.

Context {World Value Data Menu Doc DocClass SheetClass Options : Type}.
Variable originalSettings : ClientSettings World Value Data Menu.
Variable originalDocument : DocumentPrototype World Doc Value.
Variable originalSheets : SheetRegistry World DocClass SheetClass Options.



End ProxyProperties.

Section SettingsPrograms.

Import Proxy Foundry.

Lemma patched_call_is_canonical_call
    (s : ClientSettings World JVal JVal JVal) (c : SettingsCall) (w : World) :
  runCall (patchSettings s) c w = runCall s (redirectCall c) w.
Proof. now destruct c. Qed.

(** X17. A sequence of calls made through the replaced methods of
    [game.settings] is the same sequence made on the original methods with
    every namespace made canonical, whatever the store. *)
Theorem patched_calls_are_canonical_calls
    (s : ClientSettings World JVal JVal JVal) (calls : list SettingsCall) (w : World) :
  runCalls (patchSettings s) calls w = runCalls s (List.map redirectCall calls) w.
Proof.
  unfold runCalls. revert w.
  induction calls as [|c calls IH]; intros w; [reflexivity|].
  cbn [fold_left List.map]. now rewrite patched_call_is_canonical_call, IH.
Qed.

Lemma patched_call_keeps_stored
    (c : SettingsCall) (w : World) (k : string * string) :
  is_Some (storage w !! k) ->
  is_Some (storage (snd (runCall (patchSettings settings) c w)) !! k).
Proof.
  intros H. destruct c as [m key | m key v | m key d | m key d];
    cbn [runCall patchSettings settings bind ret snd get set register registerMenu
         storage]; try assumption.
  destruct (decide ((if String.eqb m "dnd5e" then "dnd5e-2014" else m, key) = k))
    as [<- | Hne].
  - rewrite lookup_insert_eq. eauto.
  - now rewrite lookup_insert_ne.
Qed.

Lemma patched_calls_keep_stored
    (calls : list SettingsCall) (w : World) (k : string * string) :
  is_Some (storage w !! k) ->
  is_Some (storage (runCalls (patchSettings settings) calls w) !! k).
Proof.
  unfold runCalls. revert w.
  induction calls as [|c calls IH]; intros w H; [exact H|].
  cbn [fold_left]. apply IH. now apply patched_call_keeps_stored.
Qed.

(** X18. On a key/value store that held nothing under [dnd5e], after any
    sequence of calls through the replaced methods nothing is stored,
    registered or filed under [dnd5e], and every key that was set under
    [dnd5e] holds a value under [dnd5e-2014]. *)
Theorem legacy_calls_file_under_canonical (calls : list SettingsCall) (w : World) :
  noLegacyEntry w ->
  noLegacyEntry (runCalls (patchSettings settings) calls w)
  /\ forall key value,
       In (CallSet "dnd5e" key value) calls ->
       is_Some (storage (runCalls (patchSettings settings) calls w)
                  !! ("dnd5e-2014", key)).
Proof.
  intros Hw. split; [now apply patched_calls_keep_noLegacyEntry|].
  clear Hw. revert w.
  induction calls as [|c calls IH]; intros w key value Hin; [destruct Hin|].
  destruct Hin as [-> | Hin].
  - unfold runCalls. cbn [fold_left].
    apply patched_calls_keep_stored.
    cbn [runCall patchSettings settings bind ret snd set storage String.eqb].
    rewrite lookup_insert_eq. eauto.
  - now apply (IH _ key value).
Qed.

End SettingsPrograms.

Lemma legacy_calls_file_under_canonical_witness :
  Foundry.storage
    (Foundry.runCalls (Proxy.patchSettings Foundry.settings)
       [Foundry.CallRegister "dnd5e" "honorScore" (JBool false);
        Foundry.CallSet "dnd5e" "honorScore" (JBool true)]
       Foundry.emptyWorld) !! ("dnd5e", "honorScore") = None.
Proof.
  refine (proj1 (proj1 (legacy_calls_file_under_canonical
                          [Foundry.CallRegister "dnd5e" "honorScore" (JBool false);
                           Foundry.CallSet "dnd5e" "honorScore" (JBool true)]
                          Foundry.emptyWorld _) "honorScore")).
  intros key. repeat split; apply lookup_empty.
Defined.

(* ===================================================================== *)
(** ** Flags of documents that carry the mixin *)
(* ===================================================================== *)

Section MixinDocuments.

Import SystemFlagsMixin.

Context {World : Type}.
Variable original : Proxy.DocumentPrototype World Document JVal.
Variable expandObject : JVal -> JVal.
Variable update : Document -> JVal -> Host World Document.

(** X19. [setDnd5eFlag(key, value)] on a document that has a data model
    for its system flags and a prior value of the scope goes through the
    data model: it hands to [update] the differences of the dry run, and the
    [setFlag] of the base class is not called. *)
Theorem setDnd5eFlag_goes_through_data_model
    (this : Document) (model : DataModel) (prior : JVal) (key : string) (value : JVal) :
  systemFlagsDataModel this = Some model ->
  doc_flags this !! "dnd5e-2014" = Some prior ->
  jsTruthy prior = true ->
  Bidirectional.setDnd5eFlag (withMixin expandObject update original) this key value
  = update this
      (JObject [("flags", JObject [("dnd5e-2014",
         updateSource_dryRun model prior (expandObject (JObject [(key, value)])))])]).
Proof.
  intros Hmodel Hprior Htruthy.
  unfold Bidirectional.setDnd5eFlag, withMixin; cbn [Proxy.setFlag]. unfold setFlag.
  cbn [String.eqb Ascii.eqb Bool.eqb]. now rewrite Hmodel, Hprior, Htruthy.
Qed.

(** X20. With the methods of [Document.prototype] replaced, a
    [setFlag("dnd5e", key, value)] on a document that carries the mixin does
    not go through the data model, whether the document has one or not: the
    mixin passes the alias on to the base class, whose replaced method calls
    the original [setFlag] with [dnd5e-2014] and the key and value as they
    came; [update] is not called by the mixin. *)
Theorem legacy_setFlag_bypasses_data_model
    (this : Document) (key : string) (value : JVal) :
  Proxy.setFlag (withMixin expandObject update (Proxy.patchDocument original))
    this "dnd5e" key value
  = Proxy.setFlag original this "dnd5e-2014" key value.
Proof.
  unfold withMixin; cbn [Proxy.setFlag]. unfold setFlag.
  cbn [String.eqb Ascii.eqb Bool.eqb]. reflexivity.
Qed.

Variable super_prepareData : Document -> Document.
Variable construct : DataModel -> JVal -> JVal.

(** X21. [prepareData] of the mixin changes nothing of what the base class
    prepared but the value of the scope [dnd5e-2014]: every other scope
    holds what it held, the scope is present afterwards exactly when it was
    present before, and without a data model nothing at all is changed. *)
Theorem prepareData_only_touches_system_scope (this : Document) :
  (forall scope, scope <> "dnd5e-2014" ->
     doc_flags (Preparation.prepareData super_prepareData construct this) !! scope
     = doc_flags (super_prepareData this) !! scope)
  /\ (is_Some (doc_flags (Preparation.prepareData super_prepareData construct this)
                 !! "dnd5e-2014")
      <-> is_Some (doc_flags (super_prepareData this) !! "dnd5e-2014"))
  /\ systemFlagsDataModel (Preparation.prepareData super_prepareData construct this)
     = systemFlagsDataModel (super_prepareData this)
  /\ (systemFlagsDataModel (super_prepareData this) = None ->
      Preparation.prepareData super_prepareData construct this
      = super_prepareData this).
Proof.
  unfold Preparation.prepareData.
  destruct (doc_flags (super_prepareData this) !! "dnd5e-2014") as [data|] eqn:Ed;
    destruct (systemFlagsDataModel (super_prepareData this)) as [model|] eqn:Em;
    cbn [doc_flags systemFlagsDataModel].
  - split; [|split; [|split]].
    + intros scope Hs. now rewrite lookup_insert_ne.
    + rewrite lookup_insert_eq. split; eauto.
    + reflexivity.
    + discriminate.
  - rewrite Ed. now repeat split.
  - rewrite Ed. now repeat split.
  - rewrite Ed. now repeat split.
Qed.

End MixinDocuments.

Lemma setDnd5eFlag_goes_through_data_model_witness :
  snd (Bidirectional.setDnd5eFlag
         (withMixin Foundry.expandObject plainUpdate plainDocuments)
         flaggedActor "tidy" (JNumber 2)
         (JObject [("flags", JObject [("dnd5e-2014",
            JObject [("favorite", JBool true); ("tidy", JNumber 1)])])]))
  = JObject [("flags", JObject [("dnd5e-2014",
      JObject [("favorite", JBool true); ("tidy", JNumber 2)])])].
Proof.
  rewrite (setDnd5eFlag_goes_through_data_model plainDocuments
             Foundry.expandObject plainUpdate flaggedActor Foundry.plainModel
             (JObject [("favorite", JBool true); ("tidy", JNumber 1)])
             "tidy" (JNumber 2) eq_refl eq_refl eq_refl).
  reflexivity.
Defined.

(* ===================================================================== *)
(** ** The alias of the world flags and the proxy of the system *)
(* ===================================================================== *)

Section AliasProperties.

Import Alias.

(** X22. Through the accessor defined on the world flags, [dnd5e] and
    [dnd5e-2014] are one property: a value written under either name is read
    back under both, a write under any other name is read back under that
    name only, and no write ever creates data under [dnd5e]; what the flags
    held under [dnd5e] before the accessor was defined is dropped. *)
Theorem world_flags_alias_laws
    (data : gmap string JVal) (prop other : string) (value : JVal) :
  readFlag (writeFlag data prop value) other
  = (if String.eqb (if String.eqb prop "dnd5e" then "dnd5e-2014" else prop)
                   (if String.eqb other "dnd5e" then "dnd5e-2014" else other)
     then value
     else readFlag data other)
  /\ writeFlag data prop value !! "dnd5e" = data !! "dnd5e"
  /\ defineAlias data !! "dnd5e" = None
  /\ readFlag (defineAlias data) other = readFlag data other.
Proof.
  assert (Hdefine : defineAlias data !! "dnd5e" = None
                    /\ readFlag (defineAlias data) other = readFlag data other).
  { unfold defineAlias, readFlag. split; [apply lookup_delete_eq|].
    destruct (String.eqb other "dnd5e") eqn:E.
    - now rewrite lookup_delete_ne.
    - apply String.eqb_neq in E. rewrite lookup_delete_ne; [reflexivity|congruence]. }
  cut (readFlag (writeFlag data prop value) other
       = (if String.eqb (if String.eqb prop "dnd5e" then "dnd5e-2014" else prop)
                        (if String.eqb other "dnd5e" then "dnd5e-2014" else other)
          then value
          else readFlag data other)
       /\ writeFlag data prop value !! "dnd5e" = data !! "dnd5e"); [tauto|].
  clear Hdefine. unfold readFlag, writeFlag.
  destruct (String.eqb prop "dnd5e") eqn:Ep;
    destruct (String.eqb other "dnd5e") eqn:Eo.
  - cbn [String.eqb Ascii.eqb Bool.eqb]. rewrite lookup_insert_eq.
    split; [reflexivity|]. now rewrite lookup_insert_ne.
  - split; [|now rewrite lookup_insert_ne].
    destruct (String.eqb "dnd5e-2014" other) eqn:E.
    + apply String.eqb_eq in E. subst other. now rewrite lookup_insert_eq.
    + apply String.eqb_neq in E. now rewrite lookup_insert_ne.
  - apply String.eqb_neq in Ep.
    split; [|rewrite lookup_insert_ne; [reflexivity|assumption]].
    destruct (String.eqb prop "dnd5e-2014") eqn:E.
    + apply String.eqb_eq in E. subst prop. now rewrite lookup_insert_eq.
    + apply String.eqb_neq in E. now rewrite lookup_insert_ne.
  - apply String.eqb_neq in Ep.
    split; [|rewrite lookup_insert_ne; [reflexivity|assumption]].
    destruct (String.eqb prop other) eqn:E.
    + apply String.eqb_eq in E. subst other. now rewrite lookup_insert_eq.
    + apply String.eqb_neq in E. now rewrite lookup_insert_ne.
Qed.

(** X23. A read of [game.system] through the proxy returns what the system
    object holds under that property, so the id read is the id of the
    system and not the alias; the only property a read can change is
    [_compatibilityIds], and once [id] has been read no later read changes
    the system object. *)
Theorem proxyGet_reads_the_system (target : gmap string JVal) (prop : string) :
  fst (proxyGet target prop) = default JUndefined (target !! prop)
  /\ (forall other, other <> "_compatibilityIds" ->
        snd (proxyGet target prop) !! other = target !! other)
  /\ (forall later,
        snd (proxyGet (snd (proxyGet target "id")) later)
        = snd (proxyGet target "id")).
Proof.
  split; [|split].
  - unfold proxyGet. now destruct (String.eqb prop "id").
  - intros other Hother. unfold proxyGet.
    destruct (String.eqb prop "id"); [|reflexivity]. cbn [snd].
    destruct (negb _); [|reflexivity]. now rewrite lookup_insert_ne.
  - intros later. unfold proxyGet at 2 3. cbn [String.eqb Ascii.eqb Bool.eqb snd].
    destruct (SystemFlagsMixin.jsTruthy
                (default JUndefined (target !! "_compatibilityIds"))) eqn:E;
      cbn [negb]; unfold proxyGet.
    + destruct (String.eqb later "id"); [|reflexivity]. cbn [snd]. now rewrite E.
    + destruct (String.eqb later "id"); [|reflexivity]. cbn [snd].
      now rewrite lookup_insert_eq.
Qed.

End AliasProperties.

(* ===================================================================== *)
(** ** The attribute lists of the [setup] hook *)
(* ===================================================================== *)

Section AttributeLists.

Import Setup.

Lemma append_nil_r (s : string) : s ++ "" = s.
Proof. induction s as [|c s IH]; [reflexivity|]. now rewrite append_cons, IH. Qed.

Lemma length_append (s t : string) :
  String.length (s ++ t) = String.length s + String.length t.
Proof.
  induction s as [|c s IH]; [reflexivity|].
  rewrite append_cons. cbn [String.length]. now rewrite IH.
Qed.

Lemma append_right_cancel (s t u : string) : s ++ u = t ++ u -> s = t.
Proof.
  revert t. induction s as [|c s IH]; intros [|d t] H.
  - reflexivity.
  - apply (f_equal String.length) in H. rewrite append_nil, !length_append in H.
    cbn [String.length] in H. lia.
  - apply (f_equal String.length) in H. rewrite append_nil, !length_append in H.
    cbn [String.length] in H. lia.
  - rewrite !append_cons in H. injection H as -> H. f_equal. now apply IH.
Qed.

Lemma altSpells_fold (suffix : string) (modes : list (string * bool)) (acc : list string) :
  fold_left
    (fun acc kv =>
       if negb (existsb (String.eqb (fst kv)) ["prepared"; "always"]) && snd kv
       then app acc ["spells." ++ fst kv ++ suffix]
       else acc)
    modes acc
  = app acc (List.map (fun kv => "spells." ++ fst kv ++ suffix)
               (List.filter alternative modes)).
Proof.
  revert acc. induction modes as [|kv modes IH]; intros acc.
  - cbn [fold_left List.filter List.map]. now rewrite app_nil_r.
  - cbn [fold_left List.filter]. rewrite IH. unfold alternative at 2.
    destruct (negb (existsb (String.eqb (fst kv)) ["prepared"; "always"]) && snd kv).
    + cbn [List.map]. now rewrite <- app_assoc.
    + reflexivity.
Qed.

Lemma altSpells_filter (DND5E : Config) (suffix : string) :
  altSpells DND5E suffix
  = List.map (fun kv => "spells." ++ fst kv ++ suffix)
      (List.filter alternative (spellPreparationModes DND5E)).
Proof. unfold altSpells. now rewrite altSpells_fold. Qed.

Lemma in_altSpells (DND5E : Config) (suffix s : string) :
  In s (altSpells DND5E suffix)
  <-> exists k, In (k, true) (spellPreparationModes DND5E)
                /\ k <> "prepared" /\ k <> "always"
                /\ s = "spells." ++ k ++ suffix.
Proof.
  rewrite altSpells_filter, in_map_iff. split.
  - intros ([k upcast] & <- & Hin). apply filter_In in Hin as [Hin Halt].
    unfold alternative in Halt. cbn [fst snd existsb] in *.
    apply andb_true_iff in Halt as [Hk ->].
    apply negb_true_iff, orb_false_iff in Hk as [Hp Hk].
    apply orb_false_iff in Hk as [Ha _].
    exists k. repeat split; try assumption; now apply String.eqb_neq.
  - intros (k & Hin & Hp & Ha & ->). exists (k, true). split; [reflexivity|].
    apply filter_In. split; [assumption|].
    unfold alternative. cbn [fst snd existsb].
    apply String.eqb_neq in Hp, Ha. now rewrite Hp, Ha.
Qed.

Lemma creature_bar (DND5E : Config) (s : string) :
  In s (bar (character (_configureTrackableAttributes DND5E)))
  <-> s = "attributes.hp"
      \/ In s (altSpells DND5E "")
      \/ In s (List.map (fun l => "spells.spell" ++ pretty l) (slotLevels DND5E))
      \/ In s ["resources.primary"; "resources.secondary";
               "resources.tertiary"; "details.xp"].
Proof.
  unfold _configureTrackableAttributes, slotLevels; cbn [character bar app In].
  rewrite !in_app_iff. cbn [In]. intuition congruence.
Qed.

Lemma consumable_spells (DND5E : Config) (s : string) :
  In s (altSpells DND5E ".value")
  \/ In s (List.map (fun level => "spells.spell" ++ pretty level ++ ".value")
             (slotLevels DND5E)) ->
  In s (_configureConsumableAttributes DND5E).
Proof.
  unfold _configureConsumableAttributes, slotLevels.
  rewrite !in_app_iff. tauto.
Qed.

Ltac string_mismatch H := cbv [String.append] in H; discriminate H.

(** X24. Every bar of a character that is a spell resource has its
    consumable resource: when [spells.<x>] is among the bars that
    [_configureTrackableAttributes] gives to characters, [spells.<x>.value]
    is among the resources that [_configureConsumableAttributes] lists. *)
Theorem spell_bars_have_consumable_resources (DND5E : Config) (s : string) :
  startsWith s "spells." = true ->
  In s (bar (character (_configureTrackableAttributes DND5E))) ->
  In (s ++ ".value") (_configureConsumableAttributes DND5E).
Proof.
  intros Hs Hin. apply consumable_spells.
  apply creature_bar in Hin as [-> | [Hin | [Hin | Hin]]].
  - discriminate Hs.
  - left. apply in_altSpells in Hin as (k & Hin & Hp & Ha & ->).
    apply in_altSpells. exists k. repeat split; try assumption.
    now rewrite append_nil_r, append_assoc.
  - right. apply in_map_iff in Hin as (l & <- & Hin).
    apply in_map_iff. exists l. split; [|assumption]. now rewrite append_assoc.
  - cbn [In] in Hin. destruct Hin as [<- | [<- | [<- | [<- | []]]]]; discriminate Hs.
Qed.

(** X25. A spell preparation mode other than [prepared] and [always] whose
    [upcast] is set is a bar of characters and of NPCs and a consumable
    resource. *)
Theorem upcast_modes_are_tracked (DND5E : Config) (k : string) :
  In (k, true) (spellPreparationModes DND5E) ->
  k <> "prepared" ->
  k <> "always" ->
  In ("spells." ++ k) (bar (character (_configureTrackableAttributes DND5E)))
  /\ In ("spells." ++ k) (bar (npc (_configureTrackableAttributes DND5E)))
  /\ In ("spells." ++ k ++ ".value") (_configureConsumableAttributes DND5E).
Proof.
  intros Hin Hp Ha.
  assert (Halt : In ("spells." ++ k) (altSpells DND5E "")).
  { apply in_altSpells. exists k. repeat split; try assumption.
    now rewrite append_nil_r. }
  split; [|split].
  - apply creature_bar. tauto.
  - unfold _configureTrackableAttributes; cbn [npc bar app In].
    right. rewrite !in_app_iff. tauto.
  - apply consumable_spells. left. apply in_altSpells. exists k. now repeat split.
Qed.

Lemma excluded_mode_not_tracked (DND5E : Config) (k : string) :
  k = "prepared" \/ k = "always" ->
  ~ In ("spells." ++ k) (bar (character (_configureTrackableAttributes DND5E)))
  /\ ~ In ("spells." ++ k ++ ".value") (_configureConsumableAttributes DND5E).
Proof.
  intros Hk. split.
  - intros Hin. apply creature_bar in Hin as [H | [Hin | [Hin | Hin]]].
    + destruct Hk as [-> | ->]; discriminate H.
    + apply in_altSpells in Hin as (k' & _ & Hp & Ha & E).
      rewrite append_nil_r in E. apply String.app_inj in E.
      destruct Hk; congruence.
    + apply in_map_iff in Hin as (l & E & _).
      destruct Hk as [-> | ->]; string_mismatch E.
    + cbn [In] in Hin.
      destruct Hk as [-> | ->];
        destruct Hin as [E | [E | [E | [E | []]]]]; discriminate E.
  - unfold _configureConsumableAttributes. rewrite !in_app_iff, !in_map_iff.
    fold (slotLevels DND5E).
    intros [(a & E & _) | [Hin | [(a & E & _) | [(a & E & _) | [(a & E & _)
           | [Hin | [Hin | (l & E & _)]]]]]]].
    + destruct Hk as [-> | ->]; string_mismatch E.
    + cbn [In] in Hin. destruct Hk as [-> | ->];
        destruct Hin as [E | [E | []]]; discriminate E.
    + destruct Hk as [-> | ->]; string_mismatch E.
    + destruct Hk as [-> | ->]; string_mismatch E.
    + destruct Hk as [-> | ->]; string_mismatch E.
    + cbn [In] in Hin. destruct Hk as [-> | ->];
        destruct Hin as [E | [E | [E | [E | [E | [E | []]]]]]]; discriminate E.
    + apply in_altSpells in Hin as (k' & _ & Hp & Ha & E).
      apply String.app_inj, append_right_cancel in E.
      destruct Hk; congruence.
    + destruct Hk as [-> | ->]; string_mismatch E.
Qed.

(** X26. The modes [prepared] and [always] are never kept, whatever their
    [upcast]: [spells.prepared] and [spells.always] are no bar of a
    character, and [spells.prepared.value] and [spells.always.value] are no
    consumable resource. *)
Theorem prepared_and_always_never_tracked (DND5E : Config) :
  ~ In "spells.prepared" (bar (character (_configureTrackableAttributes DND5E)))
  /\ ~ In "spells.always" (bar (character (_configureTrackableAttributes DND5E)))
  /\ ~ In "spells.prepared.value" (_configureConsumableAttributes DND5E)
  /\ ~ In "spells.always.value" (_configureConsumableAttributes DND5E).
Proof.
  destruct (excluded_mode_not_tracked DND5E "prepared") as [Hp Hp']; [now left|].
  destruct (excluded_mode_not_tracked DND5E "always") as [Ha Ha']; [now right|].
  now repeat split.
Qed.

(** X27. What is trackable for a vehicle is trackable for characters and
    for NPCs, every value attribute of a character is one of an NPC, a
    vehicle has the one bar [attributes.hp], and a group has nothing
    trackable. *)
Theorem vehicle_attributes_are_shared (DND5E : Config) :
  let t := _configureTrackableAttributes DND5E in
  incl (value (vehicle t)) (value (character t))
  /\ incl (value (character t)) (value (npc t))
  /\ incl (bar (vehicle t)) (bar (character t))
  /\ incl (bar (vehicle t)) (bar (npc t))
  /\ bar (vehicle t) = ["attributes.hp"]
  /\ bar (group t) = [] /\ value (group t) = [].
Proof.
  unfold _configureTrackableAttributes, incl;
    cbn [character npc vehicle group bar value app].
  repeat split; intros a; cbn [In]; rewrite ?in_app_iff; cbn [In]; tauto.
Qed.

(** X28. Each spell level but the first key of [spellLevels] has its slot:
    for [l] from 1 up to the number of levels less one, [spells.spell<l>] is
    a bar of characters and of NPCs and [spells.spell<l>.value] is a
    consumable resource. *)
Theorem spell_levels_have_slots (DND5E : Config) (l : nat) :
  1 <= l ->
  l < length (spellLevels DND5E) ->
  In ("spells.spell" ++ pretty l)
     (bar (character (_configureTrackableAttributes DND5E)))
  /\ In ("spells.spell" ++ pretty l)
        (bar (npc (_configureTrackableAttributes DND5E)))
  /\ In ("spells.spell" ++ pretty l ++ ".value")
        (_configureConsumableAttributes DND5E).
Proof.
  intros H1 Hl.
  assert (Hin : In l (slotLevels DND5E)).
  { unfold slotLevels, fromRange. apply in_seq. lia. }
  split; [|split].
  - apply creature_bar. right; right; left.
    apply in_map_iff. now exists l.
  - unfold _configureTrackableAttributes; cbn [npc bar app In].
    right. rewrite !in_app_iff. left; right.
    apply in_map_iff. now exists l.
  - apply consumable_spells. right. apply in_map_iff. now exists l.
Qed.

(** X29. After the two passes of the [setup] hook over the compendiums,
    a compendium of items has the application [ItemCompendium5e], also when
    it is displayed as a table of contents; any other compendium displayed
    as a table of contents has [TableOfContentsCompendium]; every other one
    keeps its application; and no compendium is added, removed, moved or
    changed otherwise. *)
Theorem applyCompendiumClasses_by_pack (packs : list Pack) :
  applyCompendiumClasses packs
  = List.map
      (fun p =>
         {| metadata_type := metadata_type p;
            metadata_flags_display := metadata_flags_display p;
            applicationClass :=
              if String.eqb (metadata_type p) "Item" then ItemCompendium5e
              else if bool_decide (metadata_flags_display p = Some "table-of-contents")
                   then TableOfContentsCompendium
                   else applicationClass p |})
      packs.
Proof.
  unfold applyCompendiumClasses. rewrite List.map_map.
  apply List.map_ext. intros [type display class].
  cbn [metadata_type metadata_flags_display applicationClass].
  destruct display as [display|].
  - destruct (String.eqb display "table-of-contents") eqn:E;
      cbn [metadata_type metadata_flags_display applicationClass].
    + apply String.eqb_eq in E. subst display.
      rewrite bool_decide_eq_true_2 by reflexivity.
      now destruct (String.eqb type "Item").
    + apply String.eqb_neq in E.
      rewrite bool_decide_eq_false_2 by congruence.
      now destruct (String.eqb type "Item").
  - rewrite bool_decide_eq_false_2 by discriminate.
    cbn [metadata_type metadata_flags_display applicationClass].
    now destruct (String.eqb type "Item").
Qed.

End AttributeLists.

Lemma spell_bars_have_consumable_resources_witness :
  In ("spells.pact" ++ ".value") (Setup._configureConsumableAttributes sampleConfig).
Proof.
  apply (spell_bars_have_consumable_resources sampleConfig "spells.pact").
  - reflexivity.
  - vm_compute. tauto.
Defined.

Lemma upcast_modes_are_tracked_witness :
  In ("spells." ++ "pact")
     (Setup.bar (Setup.character (Setup._configureTrackableAttributes sampleConfig)))
  /\ In ("spells." ++ "pact")
        (Setup.bar (Setup.npc (Setup._configureTrackableAttributes sampleConfig)))
  /\ In ("spells." ++ "pact" ++ ".value")
        (Setup._configureConsumableAttributes sampleConfig).
Proof.
  apply (upcast_modes_are_tracked sampleConfig "pact").
  - vm_compute. tauto.
  - intros H; discriminate H.
  - intros H; discriminate H.
Defined.

Lemma spell_levels_have_slots_witness :
  In ("spells.spell" ++ pretty 2)
     (Setup.bar (Setup.character (Setup._configureTrackableAttributes sampleConfig)))
  /\ In ("spells.spell" ++ pretty 2)
        (Setup.bar (Setup.npc (Setup._configureTrackableAttributes sampleConfig)))
  /\ In ("spells.spell" ++ pretty 2 ++ ".value")
        (Setup._configureConsumableAttributes sampleConfig).
Proof.
  apply (spell_levels_have_slots sampleConfig 2); cbn; lia.
Defined.

Lemma setFlag_falls_through_witness :
  SystemFlagsMixin.setFlag Foundry.expandObject Foundry.update Foundry.baseSetFlag
    flaggedActor "core" "sheetClass" (JString "dnd5e-2014.ActorSheet5eCharacter2")
  = Foundry.baseSetFlag flaggedActor "core" "sheetClass"
      (JString "dnd5e-2014.ActorSheet5eCharacter2").
Proof.
  apply (setFlag_falls_through Foundry.expandObject Foundry.update Foundry.baseSetFlag).
  left. intros H; discriminate H.
Defined.
